(** * pdfextractor: the extraction pipeline behind [POST /api/process]

    A shallow embedding of the request handler of the PDF extractor and of
    the four stages it drives: [extractText], [extractImages], [performOCR]
    and [createMetadata].  JavaScript strings are sequences of UTF-16 code
    units, exceptions are an explicit outcome, and the calls into pdf.js,
    node-canvas, tesseract.js, [Date] and [Array.prototype.sort] are fields
    of a [Platform] record the definitions are parameterised by. *)

From Stdlib Require Import List ZArith NArith Lia Bool Ascii String.
From Stdlib Require Import Permutation Sorted.
Import ListNotations.

(** ** JavaScript strings *)

Module JS.

(** A string value is its sequence of UTF-16 code units. *)
Definition jsstring := list N.

(** ASCII literals of the source. *)
Definition lit (s : string) : jsstring :=
  map N_of_ascii (list_ascii_of_string s).

(** [s === t] on strings. *)
Fixpoint eqb (s t : jsstring) : bool :=
  match s, t with
  | [], [] => true
  | a :: s', b :: t' => (a =? b)%N && eqb s' t'
  | _, _ => false
  end.

(** [v || d] where [v] is a string or [undefined]: the empty string and
    [undefined] are falsy. *)
Definition orDefault (v : option jsstring) (d : jsstring) : jsstring :=
  match v with
  | None | Some [] => d
  | Some s => s
  end.

(** [v === 'true'] where [v] is a string or [undefined]. *)
Definition isTrue (v : option jsstring) : bool :=
  match v with
  | Some s => eqb s (lit "true"%string)
  | None => false
  end.

(** WhiteSpace and LineTerminator code points: the class [\s] of a
    regular expression, and what [String.prototype.trim] strips. *)
Definition isWhiteSpace (c : N) : bool :=
  existsb (N.eqb c)
    [9; 10; 11; 12; 13; 32; 160; 5760; 8232; 8233; 8239; 8287; 12288; 65279]%N
  || ((8192 <=? c) && (c <=? 8202))%N.

(** [/[c]$/.test(s)] for a one-character class: the last code unit of [s]
    is in the class.  Without the [m] flag, [$] is the end of input. *)
Fixpoint testEnd (cls : N -> bool) (s : jsstring) : bool :=
  match s with
  | [] => false
  | [c] => cls c
  | _ :: t => testEnd cls t
  end.

Definition testStart (cls : N -> bool) (s : jsstring) : bool :=
  match s with
  | [] => false
  | c :: _ => cls c
  end.

Fixpoint trimStart (s : jsstring) : jsstring :=
  match s with
  | c :: t => if isWhiteSpace c then trimStart t else s
  | [] => []
  end.

Definition trimEnd (s : jsstring) : jsstring := rev (trimStart (rev s)).

(** [s.trim()] *)
Definition trim (s : jsstring) : jsstring := trimEnd (trimStart s).

(** [parts.join(sep)] *)
Fixpoint join (sep : jsstring) (parts : list jsstring) : jsstring :=
  match parts with
  | [] => []
  | [p] => p
  | p :: rest => p ++ sep ++ join sep rest
  end.

Definition space : N := 32%N.
Definition newline : N := 10%N.

Definition isSpace (c : N) : bool := (c =? space)%N.

(** Two consecutive U+0020 somewhere in the string. *)
Fixpoint doubleSpace (s : jsstring) : bool :=
  match s with
  | a :: (b :: _) as t => (isSpace a && isSpace b) || doubleSpace t
  | _ => false
  end.

Definition blank (s : jsstring) : bool := forallb isWhiteSpace s.
Definition spaceFree (s : jsstring) : bool :=
  forallb (fun c => negb (isWhiteSpace c)) s.

End JS.

Import JS.

Arguments lit s%_string.

(** ** Outcomes of calls that may throw

    [Thrown message]: the call throws, or the promise it returns rejects.
    Of a thrown value the code reads one thing only, its [message] inside a
    string concatenation (the [catch] of the handler); [message] is the
    string that concatenation gives: the message of an [Error], and the
    text [undefined] for a value that has none, such as a string a worker
    rejects with.  A thrown [null] or [undefined] is not modelled. *)

Inductive outcome (A : Type) : Type :=
| Returned (a : A)
| Thrown (message : jsstring).
Arguments Returned {A} a.
Arguments Thrown {A} message.

(** ** Text reconstruction: the pure core of [extractText] *)

Record TextItem := { str : jsstring }.

Module Text.

(** [/[.!?]$/] *)
Definition isTerminal (c : N) : bool :=
  ((c =? 46) || (c =? 33) || (c =? 63))%N.

(** The reducer passed to [reduce]: [(text, word) => ...]. *)
Definition addWord (text word : jsstring) : jsstring :=
  if testEnd isTerminal text then text ++ [space] ++ word
  else if testEnd isWhiteSpace text then text ++ word
  else text ++ [space] ++ word.

(** [content.items.map(item => item.str).reduce(addWord, '')] *)
Definition pageText (items : list TextItem) : jsstring :=
  fold_left addWord (map str items) [].

(** The loop body [fullText += pageText + '\n\n'], over all pages. *)
Definition appendPage (fullText : jsstring) (items : list TextItem) : jsstring :=
  fullText ++ (pageText items ++ [newline; newline]).

(** [fullText.trim()] after the loop. *)
Definition documentText (pages : list (list TextItem)) : jsstring :=
  trim (fold_left appendPage pages []).

End Text.

(** ** The external platform

    What pdf.js, node-canvas, tesseract.js, [Date] and the engine's
    [Array.prototype.sort] return is not decided by this repository: the
    model takes it from a [Platform]. *)

(** An image object as [page.objs.get] hands it over.  [obj_data = None] is
    a missing [data] property; a width or height of [0] also stands for a
    missing one (both are falsy). *)
Record ImageObject := {
  obj_data : option (list N);
  obj_width : Z;
  obj_height : Z
}.

(** One entry of the operator list: [fnArray[j]] and [argsArray[j][0]]. *)
Record Operator := {
  fn : Z;
  imageName : jsstring
}.

(** What rendering a page at scale 2.0 gives: the PNG (base64) of the canvas
    and the viewport's size. *)
Record Rendered := {
  png : jsstring;
  viewport_width : Z;
  viewport_height : Z
}.

(** A page.  [objs_get name] is what the callback of [page.objs.get] is
    called with, or the exception of the call; a callback that is never
    called is not modelled. *)
Record PDFPage := {
  getTextContent : outcome (list TextItem);
  getOperatorList : outcome (list Operator);
  objs_get : jsstring -> outcome (option ImageObject);
  render : outcome Rendered
}.

(** A document: [getPage(i)] for [i = 1 .. numPages]. *)
Definition PDFDocument := list (outcome PDFPage).

(** A tesseract.js worker. *)
Record Worker := {
  loadLanguage : jsstring -> outcome unit;
  initialize : jsstring -> outcome unit;
  recognize : jsstring -> outcome jsstring;
  terminate : outcome unit
}.

Record Platform := {
  (** [pdfjs.getDocument({ data }).promise] *)
  getDocument : list N -> outcome PDFDocument;
  (** [pdfjs.OPS] *)
  paintImageXObject : Z;
  paintImageXObjectRepeat : Z;
  paintJpegXObject : Z;
  (** [createCanvas], [putImageData], [toBuffer('image/png')] and
      [toString('base64')] on RGBA data of the given width and height *)
  toPNG : list N -> Z -> Z -> outcome jsstring;
  (** the [n]-th call of [createWorker()] of a request *)
  createWorker : nat -> outcome Worker;
  (** [new Date().toISOString()] *)
  toISOString : jsstring;
  (** [Array.prototype.sort] with a comparison function *)
  arraySort : forall A : Type, (A -> A -> Z) -> list A -> list A
}.

(** ** Effects: a trace of stage calls, and exceptions *)

Inductive event : Type :=
| EvExtractText
| EvExtractImages
| EvCreateWorker (id : nat)
| EvRecognize (id : nat) (dataUrl : jsstring)
| EvTerminate (id : nat).

Definition isExtractText (e : event) : bool :=
  match e with EvExtractText => true | _ => false end.
Definition isExtractImages (e : event) : bool :=
  match e with EvExtractImages => true | _ => false end.
Definition isCreateWorker (e : event) : bool :=
  match e with EvCreateWorker _ => true | _ => false end.
Definition isRecognize (e : event) : bool :=
  match e with EvRecognize _ _ => true | _ => false end.
Definition isEngine (e : event) : bool :=
  match e with
  | EvCreateWorker _ | EvRecognize _ _ | EvTerminate _ => true
  | _ => false
  end.
Definition isCreateOf (id : nat) (e : event) : bool :=
  match e with EvCreateWorker k => Nat.eqb k id | _ => false end.
Definition isTerminateOf (id : nat) (e : event) : bool :=
  match e with EvTerminate k => Nat.eqb k id | _ => false end.

Definition count (p : event -> bool) (tr : list event) : nat :=
  List.length (filter p tr).

Module Eff.

(** A computation extends the trace and returns or throws. *)
Definition M (A : Type) : Type := list event -> list event * outcome A.

Definition ret {A} (a : A) : M A := fun tr => (tr, Returned a).

Definition throw {A} (message : jsstring) : M A := fun tr => (tr, Thrown message).

Definition bind {A B} (m : M A) (f : A -> M B) : M B :=
  fun tr =>
    match m tr with
    | (tr', Returned a) => f a tr'
    | (tr', Thrown e) => (tr', Thrown e)
    end.

Definition emit (e : event) : M unit := fun tr => (tr ++ [e], Returned tt).

(** [await] of an external call. *)
Definition await {A} (o : outcome A) : M A := fun tr => (tr, o).

(** [try { m } catch (error) { h error }] *)
Definition tryCatch {A} (m : M A) (h : jsstring -> M A) : M A :=
  fun tr =>
    match m tr with
    | (tr', Thrown e) => h e tr'
    | r => r
    end.

(** [try { m } finally { fin }]: [fin] runs on both exits, and an
    exception of [fin] replaces the outcome of [m]. *)
Definition tryFinally {A} (m : M A) (fin : M unit) : M A :=
  fun tr =>
    match m tr with
    | (tr', r) =>
        match fin tr' with
        | (tr'', Returned _) => (tr'', r)
        | (tr'', Thrown e) => (tr'', Thrown e)
        end
    end.

(** Run from the empty trace. *)
Definition run {A} (m : M A) : list event * outcome A := m [].

End Eff.

Import Eff.

Notation "x <- m ;; k" := (bind m (fun x => k))
  (at level 100, m at next level, right associativity).
Notation "m ;;; k" := (bind m (fun _ => k))
  (at level 100, right associativity).

(** ** The data of a request and of its response *)

Inductive ImageType : Type := page | image.

(** An entry of the [images] array. *)
Record ExtractedImage := {
  data : jsstring;
  type : ImageType;
  pageNumber : Z;
  width : Z;
  height : Z
}.

(** [req.file], as multer leaves it. *)
Record File := {
  buffer : list N;
  size : Z;
  originalname : jsstring
}.

(** [req.body]: each field is a string, or absent. *)
Record Body := {
  body_format : option jsstring;
  body_includeMetadata : option jsstring;
  body_includeImages : option jsstring
}.

Record Upload := {
  file : option File;
  body : Body
}.

(** A request: its method, and what the upload middleware ends with. *)
Record Request := {
  method : jsstring;
  upload : outcome Upload
}.

Record Metadata := {
  fileSize : Z;
  filename : jsstring;
  timestamp : jsstring;
  processedWith : jsstring;
  extractionMethod : jsstring
}.

(** The object sent with status 200: each property present or not. *)
Record Result := {
  text : option jsstring;
  images : option (list ExtractedImage);
  metadata : option Metadata
}.

Inductive Json : Type :=
| JError (error : jsstring)
| JResult (result : Result).

Record Response := {
  status : Z;
  json : Json
}.

(** ** The stages *)

(** What a [Uint8ClampedArray] keeps of a non-negative integer. *)
Definition clamp (x : N) : N := N.min x 255.

(** [addAlphaChannelToUnit8ClampedArray]: the loop, with [n] pixels left to
    write and [rest] the source from index [k] on.  Reading past the end of
    the source gives [undefined], which is stored as [0]; a value above 255
    is stored as 255. *)
Fixpoint addAlphaLoop (n : nat) (rest : list N) : list N :=
  match n with
  | O => []
  | S n' =>
      clamp (hd 0%N rest) :: clamp (hd 0%N (tl rest))
        :: clamp (hd 0%N (tl (tl rest))) :: 255%N
        :: addAlphaLoop n' (tl (tl (tl rest)))
  end.

Definition addAlphaChannelToUnit8ClampedArray
    (unit8Array : list N) (imageWidth imageHeight : Z) : list N :=
  addAlphaLoop (Z.to_nat (imageWidth * imageHeight)) unit8Array.

(** The comparison function given to [images.sort]. *)
Definition compareImages (a b : ExtractedImage) : Z :=
  if negb (pageNumber a =? pageNumber b)%Z then (pageNumber a - pageNumber b)%Z
  else match type a with page => (-1)%Z | image => 1%Z end.

Section Stages.

Variable P : Platform.

Definition validObjectTypes : list Z :=
  [paintImageXObject P; paintImageXObjectRepeat P; paintJpegXObject P].

(** The body of the loop over [operatorList.fnArray] for one operator:
    [images] after it.  Every [catch (imgError)] keeps [images] as it is. *)
Definition paintOperator (pg : PDFPage) (i : Z)
    (images : list ExtractedImage) (op : Operator) : list ExtractedImage :=
  if existsb (Z.eqb (fn op)) validObjectTypes then
    match objs_get pg (imageName op) with
    | Thrown _ => images
    | Returned None => images
    | Returned (Some img) =>
        match obj_data img with
        | None => images
        | Some pixels =>
            if negb (obj_width img =? 0)%Z && negb (obj_height img =? 0)%Z
               && (obj_width img >? 50)%Z && (obj_height img >? 50)%Z
            then
              let imageDataWithAlpha :=
                addAlphaChannelToUnit8ClampedArray
                  pixels (obj_width img) (obj_height img) in
              match toPNG P imageDataWithAlpha (obj_width img) (obj_height img) with
              | Thrown _ => images
              | Returned pngData =>
                  images ++ [ {| data := pngData; type := image; pageNumber := i;
                                 width := obj_width img; height := obj_height img |} ]
              end
            else images
        end
    end
  else images.

(** "Then capture the full page": [images] after it. *)
Definition capturePage (pg : PDFPage) (i : Z)
    (images : list ExtractedImage) : list ExtractedImage :=
  match render pg with
  | Thrown _ => images
  | Returned r =>
      images ++ [ {| data := png r; type := page; pageNumber := i;
                     width := viewport_width r; height := viewport_height r |} ]
  end.

(** The loop [for (let i = 1; i <= pdf.numPages; i++)] from page [i] on.
    [getPage] and [getOperatorList] are outside the inner [try] blocks. *)
Fixpoint imagesLoop (pages : PDFDocument) (i : Z)
    (images : list ExtractedImage) : outcome (list ExtractedImage) :=
  match pages with
  | [] => Returned images
  | Thrown e :: _ => Thrown e
  | Returned pg :: rest =>
      match getOperatorList pg with
      | Thrown e => Thrown e
      | Returned operatorList =>
          let images := fold_left (paintOperator pg i) operatorList images in
          let images := capturePage pg i images in
          imagesLoop rest (i + 1)%Z images
      end
  end.

(** [extractImages(pdfData)], the [images] of the object it returns.  The
    outer [catch] turns every exception into an empty array. *)
Definition extractImagesOf (pdfData : list N) : list ExtractedImage :=
  match getDocument P pdfData with
  | Thrown _ => []
  | Returned pdf =>
      match imagesLoop pdf 1 [] with
      | Thrown _ => []
      | Returned images => arraySort P _ compareImages images
      end
  end.

Definition extractImages (pdfData : list N) : M (list ExtractedImage) :=
  emit EvExtractImages ;;;
  ret (extractImagesOf pdfData).

(** The page loop of [extractText]. *)
Fixpoint textLoop (pages : PDFDocument) (fullText : jsstring) : outcome jsstring :=
  match pages with
  | [] => Returned fullText
  | Thrown e :: _ => Thrown e
  | Returned pg :: rest =>
      match getTextContent pg with
      | Thrown e => Thrown e
      | Returned items => textLoop rest (Text.appendPage fullText items)
      end
  end.

(** [extractText(pdfData)]: the [catch] logs and throws the error again. *)
Definition extractText (pdfData : list N) : M jsstring :=
  emit EvExtractText ;;;
  pdf <- await (getDocument P pdfData) ;;
  fullText <- await (textLoop pdf []) ;;
  ret (trim fullText).

(** [createWorker()]: the worker and its number in the request. *)
Definition newWorker : M (nat * Worker) :=
  fun tr =>
    let id := count isCreateWorker tr in
    match createWorker P id with
    | Thrown e => (tr, Thrown e)
    | Returned w => (tr ++ [EvCreateWorker id], Returned (id, w))
    end.

Definition performOCR (imageBase64 : jsstring) : M jsstring :=
  w <- newWorker ;;
  let (id, worker) := w in
  tryFinally
    (await (loadLanguage worker (lit "eng")) ;;;
     await (initialize worker (lit "eng")) ;;;
     let dataUrl := lit "data:image/png;base64," ++ imageBase64 in
     emit (EvRecognize id dataUrl) ;;;
     ocrText <- await (recognize worker dataUrl) ;;
     ret ocrText)
    (emit (EvTerminate id) ;;; await (terminate worker)).

Definition createMetadata (fileInfo : File) (processedWith : jsstring) : Metadata :=
  {| fileSize := size fileInfo;
     filename := originalname fileInfo;
     timestamp := toISOString P;
     processedWith := processedWith;
     extractionMethod := lit "pdf.js-enhanced" |}.

(** The [for ... of] loop of the [ocr] case. *)
Fixpoint ocrLoop (datas : list jsstring) (ocrResults : list jsstring)
    : M (list jsstring) :=
  match datas with
  | [] => ret ocrResults
  | imageBase64 :: rest =>
      ocrText <- performOCR imageBase64 ;;
      ocrLoop rest
        (match trim ocrText with
         | [] => ocrResults
         | _ :: _ => ocrResults ++ [ocrText]
         end)
  end.

(** What follows the [switch]: attach the images, attach the metadata,
    answer 200. *)
Definition assemble (f : File) (format : jsstring)
    (includeMetadata includeImages : bool)
    (extractedImages : option (list ExtractedImage))
    (result : Result) (processedWith : jsstring) : M Response :=
  result <-
    (if includeImages && negb (eqb format (lit "images")) then
       match extractedImages with
       | Some imgs =>
           ret {| text := text result; images := Some imgs;
                  metadata := metadata result |}
       | None =>
           throw (lit "Cannot read properties of undefined (reading 'images')")
       end
     else ret result) ;;
  let result :=
    if includeMetadata then
      {| text := text result; images := images result;
         metadata := Some (createMetadata f processedWith) |}
    else result in
  ret {| status := 200; json := JResult result |}.

Definition handler (req : Request) : M Response :=
  if negb (eqb (method req) (lit "POST")) then
    ret {| status := 405; json := JError (lit "Method not allowed") |}
  else
    tryCatch
      (up <- await (upload req) ;;
       match file up with
       | None => ret {| status := 400; json := JError (lit "No PDF file uploaded") |}
       | Some f =>
           let format := orDefault (body_format (body up)) (lit "text") in
           let includeMetadata := isTrue (body_includeMetadata (body up)) in
           let includeImages := isTrue (body_includeImages (body up)) in
           let pdfBuffer := buffer f in
           extractedImages <-
             (if eqb format (lit "images") || includeImages then
                imgs <- extractImages pdfBuffer ;; ret (Some imgs)
              else ret None) ;;
           let finish := assemble f format includeMetadata includeImages extractedImages in
           if eqb format (lit "text") then
             t <- extractText pdfBuffer ;;
             finish {| text := Some t; images := None; metadata := None |} format
           else if eqb format (lit "markdown") then
             t <- extractText pdfBuffer ;;
             finish {| text := Some (lit "# " ++ originalname f ++ [newline; newline] ++ t);
                       images := None; metadata := None |} format
           else if eqb format (lit "images") then
             match extractedImages with
             | Some imgs =>
                 finish {| text := None; images := Some imgs; metadata := None |}
                        (lit "pdf.js-enhanced")
             | None =>
                 (* [result = undefined]: not reached, the [if] above ran *)
                 finish {| text := None; images := None; metadata := None |}
                        (lit "pdf.js-enhanced")
             end
           else if eqb format (lit "ocr") then
             imgs <- match extractedImages with
                     | Some imgs => ret imgs
                     | None => extractImages pdfBuffer
                     end ;;
             ocrResults <- ocrLoop (map data imgs) [] ;;
             finish {| text := Some (join [newline; newline] ocrResults);
                       images := None; metadata := None |}
                    (lit "pdf.js-enhanced+tesseract.js")
           else
             ret {| status := 400; json := JError (lit "Invalid format specified") |}
       end)
      (fun error =>
         (* ['Error processing PDF: ' + error.message] *)
         ret {| status := 500;
                json := JError (lit "Error processing PDF: " ++ error) |}).

End Stages.

(** ** [Array.prototype.sort]

    [compareImages] never answers [0], so it is not a consistent comparison
    function and the order [sort] leaves is the engine's.  What the proofs
    take from the engine is stated here; [insertionSort],
    [insertionSortBack] and [mergeSort] are three sorts that provide it. *)

Module Sorting.

(** [cmp] decides every pair that [leb] orders strictly, the way [leb]
    does; on pairs [leb] holds equivalent it may answer anything. *)
Definition decides {A} (cmp : A -> A -> Z) (leb : A -> A -> bool) : Prop :=
  forall a b, leb b a = false -> (cmp a b < 0)%Z /\ (cmp b a > 0)%Z.

Definition transitive {A} (leb : A -> A -> bool) : Prop :=
  forall a b c, leb a b = true -> leb b c = true -> leb a c = true.

Definition sorter : Type := forall A : Type, (A -> A -> Z) -> list A -> list A.

(** The array keeps its elements. *)
Definition permutes (sort : sorter) : Prop :=
  forall A (cmp : A -> A -> Z) (l : list A), Permutation l (sort A cmp l).

(** The array ends ordered by every transitive order the comparison
    function decides. *)
Definition orders (sort : sorter) : Prop :=
  forall A (cmp : A -> A -> Z) (leb : A -> A -> bool),
    transitive leb -> decides cmp leb ->
    forall l, StronglySorted (fun a b => leb a b = true) (sort A cmp l).

(** Insertion from the front: the new element goes before the first one
    it does not compare greater than. *)
Fixpoint insert {A} (cmp : A -> A -> Z) (x : A) (l : list A) : list A :=
  match l with
  | [] => [x]
  | y :: t => if (cmp x y <=? 0)%Z then x :: l else y :: insert cmp x t
  end.

Definition insertionSort : sorter :=
  fun A cmp l => fold_left (fun acc x => insert cmp x acc) l [].

(** Insertion from the back, the older element as first argument: the new
    element passes every element that compares greater than it. *)
Fixpoint insertBack {A} (cmp : A -> A -> Z) (x : A) (rl : list A) : list A :=
  match rl with
  | [] => [x]
  | y :: t => if (cmp y x >? 0)%Z then y :: insertBack cmp x t else x :: rl
  end.

Definition insertionSortBack : sorter :=
  fun A cmp l => rev (fold_left (fun racc x => insertBack cmp x racc) l []).

(** Merging two arrays: the head of the right one goes first only when it
    compares less than the head of the left one. *)
Fixpoint merge {A} (cmp : A -> A -> Z) (l1 l2 : list A) {struct l1} : list A :=
  let fix mergeRight (l2 : list A) {struct l2} : list A :=
    match l1, l2 with
    | [], _ => l2
    | _, [] => l1
    | a1 :: l1', a2 :: l2' =>
        if (cmp a2 a1 <? 0)%Z then a2 :: mergeRight l2' else a1 :: merge cmp l1' l2
    end
  in mergeRight l2.

(** One round of a bottom-up merge sort: neighbouring runs are merged. *)
Fixpoint mergePairs {A} (cmp : A -> A -> Z) (runs : list (list A)) : list (list A) :=
  match runs with
  | a :: b :: rest => merge cmp a b :: mergePairs cmp rest
  | _ => runs
  end.

(** At most [rounds] rounds; one run is left when [rounds] is at least the
    number of runs. *)
Fixpoint mergeRounds {A} (cmp : A -> A -> Z) (rounds : nat) (runs : list (list A))
    : list A :=
  match runs with
  | [] => []
  | [l] => l
  | _ =>
      match rounds with
      | O => List.concat runs
      | S n => mergeRounds cmp n (mergePairs cmp runs)
      end
  end.

Definition mergeSort : sorter :=
  fun A cmp l => mergeRounds cmp (List.length l) (map (fun x => [x]) l).

End Sorting.

(** ** Properties the claims speak of *)

(** The order of the [images] array: by page, the page's own picture first. *)
Definition imageLeb (a b : ExtractedImage) : bool :=
  (pageNumber a <? pageNumber b)%Z
  || ((pageNumber a =? pageNumber b)%Z
      && match type a, type b with
         | image, page => false
         | _, _ => true
         end).

Definition isEmbedded (e : ExtractedImage) : bool :=
  match type e with image => true | page => false end.

(** An image object passes the filter of [extractImages]. *)
Definition passesFilter (img : ImageObject) : bool :=
  match obj_data img with
  | Some _ => (obj_width img >? 50)%Z && (obj_height img >? 50)%Z
  | None => false
  end.

(** The entry one operator of page [i] gives, if any: its object is of a
    painted-image kind, resolves, passes the filter and is encoded. *)
Definition contribution (P : Platform) (pg : PDFPage) (i : Z) (op : Operator)
    : option ExtractedImage :=
  if existsb (Z.eqb (fn op)) (validObjectTypes P) then
    match objs_get pg (imageName op) with
    | Returned (Some img) =>
        match obj_data img with
        | Some pixels =>
            if passesFilter img then
              match toPNG P (addAlphaChannelToUnit8ClampedArray pixels
                               (obj_width img) (obj_height img))
                          (obj_width img) (obj_height img) with
              | Returned d =>
                  Some {| data := d; type := image; pageNumber := i;
                          width := obj_width img; height := obj_height img |}
              | Thrown _ => None
              end
            else None
        | None => None
        end
    | _ => None
    end
  else None.

Definition embeddedOfPage (P : Platform) (pg : PDFPage) (i : Z)
    (operatorList : list Operator) : list ExtractedImage :=
  flat_map (fun op => match contribution P pg i op with
                      | Some e => [e]
                      | None => []
                      end) operatorList.

Fixpoint embeddedOf (P : Platform) (pages : PDFDocument) (i : Z) : list ExtractedImage :=
  match pages with
  | [] => []
  | Returned pg :: rest =>
      match getOperatorList pg with
      | Returned ops => embeddedOfPage P pg i ops ++ embeddedOf P rest (i + 1)
      | Thrown _ => embeddedOf P rest (i + 1)
      end
  | Thrown _ :: rest => embeddedOf P rest (i + 1)
  end.

(** The spacing invariant of a page string, as the specification words it. *)
Definition spacingInvariant (s : jsstring) : bool :=
  negb (doubleSpace s) && negb (testStart isWhiteSpace s)
  && negb (testEnd isWhiteSpace s).

(** The events a computation adds to the trace [tr]. *)
Definition added {A} (m : M A) (tr : list event) : list event :=
  skipn (List.length tr) (fst (m tr)).

(** The image data handed to recognition, in order. *)
Definition recognized (tr : list event) : list jsstring :=
  flat_map (fun e => match e with
                     | EvRecognize _ dataUrl =>
                         [skipn (List.length (lit "data:image/png;base64,")) dataUrl]
                     | _ => []
                     end) tr.

(** The formats the [switch] has a case for. *)
Definition knownFormat (format : jsstring) : bool :=
  eqb format (lit "text") || eqb format (lit "markdown")
  || eqb format (lit "images") || eqb format (lit "ocr").

(** A POST request with a file. *)
Definition post (f : File) (b : Body) : Request :=
  {| method := lit "POST"; upload := Returned {| file := Some f; body := b |} |}.

(** A text item with an ASCII string. *)
Definition item (s : string) : TextItem := {| str := lit s |}.
Arguments item s%_string.

Definition flag (b : bool) : option jsstring :=
  Some (if b then lit "true" else lit "false").

(** ** The Text Reconstructor as the specification words it *)

Module Spec.

(** The fold of section 4.1 of the specification, one token at a time. *)
Definition foldToken (acc token : jsstring) : jsstring :=
  match rev acc with
  | c :: _ =>
      if Text.isTerminal c then acc ++ [space] ++ token
      else if isWhiteSpace c then acc ++ token
      else acc ++ [space] ++ token
  | [] => acc ++ [space] ++ token
  end.

(** Section 4.1: fold, then trim the page string. *)
Definition pageString (tokens : list TextItem) : jsstring :=
  trim (fold_left foldToken (map str tokens) []).

(** Section 4.1: join the page strings with one blank line and trim the
    result. *)
Definition reconstruct (pages : list (list TextItem)) : jsstring :=
  trim (join [newline; newline] (map pageString pages)).

End Spec.

(** ** One recognition pass, summarised

    What a pass of [performOCR] ends with and what it adds to the trace, as
    functions of the worker it is given; [performOCR_run] shows that the
    monadic definition computes them. *)

Definition dataUrlOf (imageBase64 : jsstring) : jsstring :=
  lit "data:image/png;base64," ++ imageBase64.

(** What the [try] block ends with. *)
Definition tryOutcome (w : Worker) (imageBase64 : jsstring) : outcome jsstring :=
  match loadLanguage w (lit "eng") with
  | Thrown e => Thrown e
  | Returned _ =>
      match initialize w (lit "eng") with
      | Thrown e => Thrown e
      | Returned _ => recognize w (dataUrlOf imageBase64)
      end
  end.

Definition reachesRecognize (w : Worker) : bool :=
  match loadLanguage w (lit "eng"), initialize w (lit "eng") with
  | Returned _, Returned _ => true
  | _, _ => false
  end.

(** What pass number [k] of a request ends with on an image. *)
Definition passOutcome (P : Platform) (k : nat) (imageBase64 : jsstring)
    : outcome jsstring :=
  match createWorker P k with
  | Thrown e => Thrown e
  | Returned w =>
      match terminate w with
      | Thrown e => Thrown e
      | Returned _ => tryOutcome w imageBase64
      end
  end.

Definition passEvents (P : Platform) (k : nat) (imageBase64 : jsstring) : list event :=
  match createWorker P k with
  | Thrown _ => []
  | Returned w =>
      EvCreateWorker k
        :: (if reachesRecognize w then [EvRecognize k (dataUrlOf imageBase64)] else [])
        ++ [EvTerminate k]
  end.

(** The texts the [ocr] case keeps: those that are not blank. *)
Definition keepText (ocrText : jsstring) : bool :=
  match trim ocrText with [] => false | _ :: _ => true end.

(** The batch of the [ocr] case from pass number [k] on: what it ends with,
    and what it adds to the trace. *)
Fixpoint batchOutcome (P : Platform) (k : nat) (datas : list jsstring)
    (ocrResults : list jsstring) : outcome (list jsstring) :=
  match datas with
  | [] => Returned ocrResults
  | d :: rest =>
      match passOutcome P k d with
      | Thrown e => Thrown e
      | Returned t =>
          batchOutcome P (S k) rest
            (if keepText t then ocrResults ++ [t] else ocrResults)
      end
  end.

Fixpoint batchEvents (P : Platform) (k : nat) (datas : list jsstring) : list event :=
  match datas with
  | [] => []
  | d :: rest =>
      passEvents P k d
        ++ match passOutcome P k d with
           | Thrown _ => []
           | Returned _ => batchEvents P (S k) rest
           end
  end.

(** What [extractText] ends with. *)
Definition textOutcome (P : Platform) (pdfData : list N) : outcome jsstring :=
  match getDocument P pdfData with
  | Thrown e => Thrown e
  | Returned pdf =>
      match textLoop pdf [] with
      | Thrown e => Thrown e
      | Returned fullText => Returned (trim fullText)
      end
  end.

(** The format a request is served with, and its two flags. *)
Definition formatOf (b : Body) : jsstring := orDefault (body_format b) (lit "text").
Definition wantsImages (b : Body) : bool := isTrue (body_includeImages b).
Definition wantsMetadata (b : Body) : bool := isTrue (body_includeMetadata b).

(** The response with status 200: the primary text if any, the images when
    they are the format or asked for, the metadata when asked for. *)
Definition okResponse (P : Platform) (f : File) (b : Body)
    (primaryText : option jsstring) (processedWith : jsstring) : Response :=
  {| status := 200;
     json := JResult
       {| text := primaryText;
          images := if wantsImages b || eqb (formatOf b) (lit "images")
                    then Some (extractImagesOf P (buffer f)) else None;
          metadata := if wantsMetadata b
                      then Some (createMetadata P f processedWith) else None |} |}.

Definition errorResponse (message : jsstring) : Response :=
  {| status := 500; json := JError (lit "Error processing PDF: " ++ message) |}.

Definition invalidFormat : Response :=
  {| status := 400; json := JError (lit "Invalid format specified") |}.

(** The events of the rasterization that precedes the [switch]. *)
Definition rasterEvents (b : Body) : list event :=
  if eqb (formatOf b) (lit "images") || wantsImages b then [EvExtractImages] else [].

(** ** A platform and requests to run the model on *)

Module Demo.

Definition smallBitmap : ImageObject :=
  {| obj_data := Some [255; 0; 0]%N; obj_width := 40; obj_height := 40 |}.

Definition bigBitmap : ImageObject :=
  {| obj_data := Some [0; 0; 255]%N; obj_width := 100; obj_height := 100 |}.

Definition onePage : PDFPage :=
  {| getTextContent := Returned [item "Hello"; item "world."];
     getOperatorList :=
       Returned [ {| fn := 85; imageName := lit "img_p0_1" |};
                  {| fn := 85; imageName := lit "img_p0_2" |} ];
     objs_get := fun name =>
       if eqb name (lit "img_p0_1") then Returned (Some smallBitmap)
       else if eqb name (lit "img_p0_2") then Returned (Some bigBitmap)
       else Thrown (lit "Requesting object that isn't resolved yet");
     render := Returned {| png := lit "cGFnZQ=="; viewport_width := 1224;
                           viewport_height := 1584 |} |}.

Definition worker (recognition : outcome jsstring) : Worker :=
  {| loadLanguage := fun _ => Returned tt;
     initialize := fun _ => Returned tt;
     recognize := fun _ => recognition;
     terminate := Returned tt |}.

(** A one-page document; every recognition ends with [recognition]. *)
Definition platform (recognition : outcome jsstring) : Platform :=
  {| getDocument := fun _ => Returned [Returned onePage];
     paintImageXObject := 85;
     paintImageXObjectRepeat := 88;
     paintJpegXObject := 82;
     toPNG := fun _ _ _ => Returned (lit "aW1hZ2U=");
     createWorker := fun _ => Returned (worker recognition);
     toISOString := lit "2024-05-01T12:00:00.000Z";
     arraySort := Sorting.insertionSort |}.

(** The same with a document of no page. *)
Definition emptyPlatform : Platform :=
  {| getDocument := fun _ => Returned [];
     paintImageXObject := 85;
     paintImageXObjectRepeat := 88;
     paintJpegXObject := 82;
     toPNG := fun _ _ _ => Returned (lit "aW1hZ2U=");
     createWorker := fun _ => Returned (worker (Returned []));
     toISOString := lit "2024-05-01T12:00:00.000Z";
     arraySort := Sorting.insertionSort |}.

Definition docPdf : File :=
  {| buffer := [37; 80; 68; 70]%N; size := 4; originalname := lit "doc.pdf" |}.

Definition fields (format : string) (includeMetadata includeImages : bool) : Body :=
  {| body_format := Some (lit format);
     body_includeMetadata := flag includeMetadata;
     body_includeImages := flag includeImages |}.

Definition request (format : string) (includeMetadata includeImages : bool) : Request :=
  post docPdf (fields format includeMetadata includeImages).

Definition pageEntry : ExtractedImage :=
  {| data := lit "cGFnZQ=="; type := page; pageNumber := 1;
     width := 1224; height := 1584 |}.

Definition embeddedEntry : ExtractedImage :=
  {| data := lit "aW1hZ2U="; type := image; pageNumber := 1;
     width := 100; height := 100 |}.

(** The object the [ocr] request with both flags is answered with when
    every recognition gives [Hi]. *)
Definition ocrResult : Result :=
  {| text := Some (lit "Hi" ++ [newline; newline] ++ lit "Hi");
     images := Some [pageEntry; embeddedEntry];
     metadata :=
       Some {| fileSize := 4; filename := lit "doc.pdf";
               timestamp := lit "2024-05-01T12:00:00.000Z";
               processedWith := lit "pdf.js-enhanced+tesseract.js";
               extractionMethod := lit "pdf.js-enhanced" |} |}.

End Demo.

(** ** What the page loop pushes, page by page *)

Definition isPagePicture (e : ExtractedImage) : bool :=
  match type e with page => true | image => false end.

(** The entry the picture of page [i] gives, if rendering returns. *)
Definition pageEntryOfPage (pg : PDFPage) (i : Z) : list ExtractedImage :=
  match render pg with
  | Returned r =>
      [ {| data := png r; type := page; pageNumber := i;
           width := viewport_width r; height := viewport_height r |} ]
  | Thrown _ => []
  end.

Fixpoint pageEntriesOf (pages : PDFDocument) (i : Z) : list ExtractedImage :=
  match pages with
  | [] => []
  | Returned pg :: rest => pageEntryOfPage pg i ++ pageEntriesOf rest (i + 1)
  | Thrown _ :: rest => pageEntriesOf rest (i + 1)
  end.

(** The entries in the order they are pushed: for each page its embedded
    images, then its picture. *)
Fixpoint pushedEntries (P : Platform) (pages : PDFDocument) (i : Z)
    : list ExtractedImage :=
  match pages with
  | [] => []
  | Returned pg :: rest =>
      match getOperatorList pg with
      | Returned ops =>
          embeddedOfPage P pg i ops ++ pageEntryOfPage pg i
            ++ pushedEntries P rest (i + 1)
      | Thrown _ => pushedEntries P rest (i + 1)
      end
  | Thrown _ :: rest => pushedEntries P rest (i + 1)
  end.

(** The picture of the page can be rendered. *)
Definition renders (pgo : outcome PDFPage) : bool :=
  match pgo with
  | Returned pg => match render pg with Returned _ => true | Thrown _ => false end
  | Thrown _ => false
  end.

(** A page gives its text items; a page fails in [extractText]; a page
    fails in [extractImages] outside the inner [try] blocks. *)
Definition pageGivesText (pgo : outcome PDFPage) : Prop :=
  exists pg items, pgo = Returned pg /\ getTextContent pg = Returned items.

Definition pageFailsText (pgo : outcome PDFPage) (e : jsstring) : Prop :=
  pgo = Thrown e \/ exists pg, pgo = Returned pg /\ getTextContent pg = Thrown e.

Definition pageFailsImages (pgo : outcome PDFPage) : Prop :=
  (exists e, pgo = Thrown e)
  \/ exists pg e, pgo = Returned pg /\ getOperatorList pg = Thrown e.

Definition isTerminate (e : event) : bool :=
  match e with EvTerminate _ => true | _ => false end.

(** At every point of the trace no worker is terminated that was not
    created, and at most one created worker is not terminated yet. *)
Definition oneAtATime (tr : list event) : Prop :=
  forall n,
    (count isTerminate (firstn n tr) <= count isCreateWorker (firstn n tr)
     <= S (count isTerminate (firstn n tr)))%nat.

(** The traces of stage calls a request can leave before recognition. *)
Definition stageTraces : list (list event) :=
  [[]; [EvExtractImages]; [EvExtractText]; [EvExtractImages; EvExtractText]].

(** A property of the response object is there. *)
Definition present {A} (o : option A) : bool :=
  match o with Some _ => true | None => false end.

(** A word without white space and not empty; a string that neither starts
    nor ends with white space and is not empty. *)
Definition cleanWord (w : jsstring) : Prop := spaceFree w = true /\ w <> [].

Definition edgeClean (s : jsstring) : Prop :=
  testStart isWhiteSpace s = false /\ testEnd isWhiteSpace s = false /\ s <> [].

(** The words of a page, and a page of clean words with at least one. *)
Definition wordsOf (items : list TextItem) : list jsstring := map str items.

Definition cleanPage (items : list TextItem) : Prop :=
  items <> [] /\ Forall cleanWord (wordsOf items).

(** ** The page that sends the requests ([pages/index.js]) *)

Module Client.

(** The values of the [select] of output formats. *)
Definition formatOptions : list jsstring :=
  [lit "text"; lit "markdown"; lit "ocr"; lit "images"].

(** [handleSubmit]: the request [fetch] sends for the chosen file, format
    and check boxes, as the handler sees it once the upload middleware has
    taken the file.  [FormData.append] turns a boolean into ['true'] or
    ['false']. *)
Definition handleSubmit (chosen : File) (format : jsstring)
    (includeMetadata includeImages : bool) : Request :=
  post chosen {| body_format := Some format;
                 body_includeMetadata := flag includeMetadata;
                 body_includeImages := flag includeImages |}.

(** The [checked] of the "Include Images" box:
    [includeImages || format === 'images']. *)
Definition imagesBoxChecked (format : jsstring) (includeImages : bool) : bool :=
  includeImages || eqb format (lit "images").

End Client.

(** ** More documents and workers to run the model on *)

Module Cases.

(** A buffer pdf.js cannot open. *)
Definition brokenPlatform : Platform :=
  {| getDocument := fun _ => Thrown (lit "Invalid PDF structure");
     paintImageXObject := 85;
     paintImageXObjectRepeat := 88;
     paintJpegXObject := 82;
     toPNG := fun _ _ _ => Returned (lit "aW1hZ2U=");
     createWorker := fun _ => Returned (Demo.worker (Returned (lit "Hi")));
     toISOString := lit "2024-05-01T12:00:00.000Z";
     arraySort := Sorting.mergeSort |}.

(** Two pages, the second of which cannot be loaded. *)
Definition secondPageFails : Platform :=
  {| getDocument := fun _ =>
       Returned [Returned Demo.onePage; Thrown (lit "Invalid page request")];
     paintImageXObject := 85;
     paintImageXObjectRepeat := 88;
     paintJpegXObject := 82;
     toPNG := fun _ _ _ => Returned (lit "aW1hZ2U=");
     createWorker := fun _ => Returned (Demo.worker (Returned (lit "Hi")));
     toISOString := lit "2024-05-01T12:00:00.000Z";
     arraySort := Sorting.mergeSort |}.

(** A worker that recognizes [Hi] and whose [terminate] throws. *)
Definition stuckWorker : Worker :=
  {| loadLanguage := fun _ => Returned tt;
     initialize := fun _ => Returned tt;
     recognize := fun _ => Returned (lit "Hi");
     terminate := Thrown (lit "Worker already terminated") |}.

Definition stuckPlatform : Platform :=
  {| getDocument := fun _ => Returned [Returned Demo.onePage];
     paintImageXObject := 85;
     paintImageXObjectRepeat := 88;
     paintJpegXObject := 82;
     toPNG := fun _ _ _ => Returned (lit "aW1hZ2U=");
     createWorker := fun _ => Returned stuckWorker;
     toISOString := lit "2024-05-01T12:00:00.000Z";
     arraySort := Sorting.insertionSortBack |}.

Definition twoWords : list TextItem := [item "Hello"; item "world."].

End Cases.

(** * Proofs *)

(** ** Strings *)

Lemma eqb_eq (s t : jsstring) : eqb s t = true <-> s = t.
Proof.
  revert t. induction s as [|a s IH]; intros [|b t]; simpl;
    try (split; [discriminate | discriminate]); [tauto|].
  rewrite andb_true_iff, N.eqb_eq, IH. split.
  - intros [-> ->]. reflexivity.
  - intros E. injection E as -> ->. auto.
Qed.

Lemma eqb_neq (s t : jsstring) : eqb s t = false <-> s <> t.
Proof.
  rewrite <- eqb_eq. destruct (eqb s t); split; congruence.
Qed.

Lemma eqb_refl (s : jsstring) : eqb s s = true.
Proof. now apply eqb_eq. Qed.

Lemma testEnd_cons cls c s : s <> [] -> testEnd cls (c :: s) = testEnd cls s.
Proof. destruct s; [congruence | reflexivity]. Qed.

Lemma testEnd_app cls s t : t <> [] -> testEnd cls (s ++ t) = testEnd cls t.
Proof.
  intros Ht. induction s as [|c s IH]; [reflexivity|].
  rewrite <- app_comm_cons, testEnd_cons; [exact IH|].
  destruct s; [exact Ht | discriminate].
Qed.

Lemma testEnd_last cls s c : testEnd cls (s ++ [c]) = cls c.
Proof. rewrite testEnd_app; [reflexivity | discriminate]. Qed.

Lemma testEnd_rev cls s : testEnd cls (rev s) = testStart cls s.
Proof.
  destruct s as [|c s]; [reflexivity|]. simpl. apply testEnd_last.
Qed.

Lemma testEnd_by_rev cls s :
  testEnd cls s = match rev s with c :: _ => cls c | [] => false end.
Proof.
  rewrite <- (rev_involutive s) at 1. rewrite testEnd_rev.
  destruct (rev s); reflexivity.
Qed.

(** When the last unit is in [p] and [p] excludes [q], it is not in [q]. *)
Lemma testEnd_exclusive (p q : N -> bool) s :
  (forall c, p c = true -> q c = false) ->
  testEnd p s = true -> testEnd q s = false.
Proof.
  intros Hpq. rewrite !testEnd_by_rev. destruct (rev s); [reflexivity|]. apply Hpq.
Qed.

Lemma testEnd_weaker (p q : N -> bool) s :
  (forall c, q c = true -> p c = true) ->
  testEnd p s = false -> testEnd q s = false.
Proof.
  intros Hqp. rewrite !testEnd_by_rev. destruct (rev s) as [|c r]; [reflexivity|].
  intros Hp. destruct (q c) eqn:Hq; [|reflexivity].
  apply Hqp in Hq. congruence.
Qed.

Lemma isSpace_white c : isSpace c = true -> isWhiteSpace c = true.
Proof. unfold isSpace. intros H. apply N.eqb_eq in H. subst. reflexivity. Qed.

Lemma terminal_not_space c : Text.isTerminal c = true -> isSpace c = false.
Proof.
  unfold Text.isTerminal, isSpace, space. intros H.
  apply orb_true_iff in H. destruct H as [H|H].
  - apply orb_true_iff in H. destruct H as [H|H]; apply N.eqb_eq in H; subst; reflexivity.
  - apply N.eqb_eq in H; subst; reflexivity.
Qed.

Lemma doubleSpace_cons a s :
  doubleSpace (a :: s) = (isSpace a && testStart isSpace s) || doubleSpace s.
Proof. destruct s; [simpl; now rewrite andb_false_r | reflexivity]. Qed.

Lemma testStart_app cls s t :
  testStart cls (s ++ t) = match s with [] => testStart cls t | c :: _ => cls c end.
Proof. destruct s; reflexivity. Qed.

Lemma doubleSpace_app s t :
  doubleSpace (s ++ t)
  = doubleSpace s || doubleSpace t || (testEnd isSpace s && testStart isSpace t).
Proof.
  induction s as [|a s IH].
  - simpl. now rewrite orb_false_r.
  - rewrite <- app_comm_cons, !doubleSpace_cons, IH, testStart_app.
    destruct s as [|b s].
    + simpl. destruct (isSpace a), (testStart isSpace t), (doubleSpace t); reflexivity.
    + rewrite (@testEnd_cons isSpace a (b :: s)) by discriminate.
      simpl testStart.
      destruct (isSpace a), (isSpace b), (doubleSpace (b :: s)), (doubleSpace t),
        (testEnd isSpace (b :: s)), (testStart isSpace t); reflexivity.
Qed.

Lemma spaceFree_start s : spaceFree s = true -> testStart isSpace s = false.
Proof.
  destruct s as [|c s]; [reflexivity|]. simpl. intros H.
  apply andb_true_iff in H. destruct H as [H _].
  destruct (isSpace c) eqn:E; [|reflexivity].
  apply isSpace_white in E. rewrite E in H. discriminate.
Qed.

Lemma spaceFree_doubleSpace s : spaceFree s = true -> doubleSpace s = false.
Proof.
  induction s as [|a s IH]; [reflexivity|].
  intros H. simpl in H. apply andb_true_iff in H. destruct H as [Ha Hs].
  rewrite doubleSpace_cons, (IH Hs), (spaceFree_start _ Hs).
  now rewrite andb_false_r.
Qed.

Lemma doubleSpace_space_word w :
  spaceFree w = true -> doubleSpace (space :: w) = false.
Proof.
  intros H.
  rewrite doubleSpace_cons, (spaceFree_doubleSpace _ H), (spaceFree_start _ H).
  now rewrite andb_false_r.
Qed.

(** *** Trimming *)

Lemma trimStart_split s :
  exists b, s = b ++ trimStart s /\ blank b = true.
Proof.
  induction s as [|c s [b [E B]]].
  - exists []. split; reflexivity.
  - simpl. destruct (isWhiteSpace c) eqn:W.
    + exists (c :: b). split; [simpl; congruence | simpl; now rewrite W].
    + exists []. split; reflexivity.
Qed.

Lemma trimStart_start s : testStart isWhiteSpace (trimStart s) = false.
Proof.
  induction s as [|c s IH]; [reflexivity|].
  simpl. destruct (isWhiteSpace c) eqn:W; [exact IH | simpl; exact W].
Qed.

Lemma trimStart_fix s : testStart isWhiteSpace s = false -> trimStart s = s.
Proof. destruct s as [|c s]; [reflexivity|]. simpl. now intros ->. Qed.

Lemma trimStart_blank b s : blank b = true -> trimStart (b ++ s) = trimStart s.
Proof.
  induction b as [|c b IH]; [reflexivity|].
  simpl. intros H. apply andb_true_iff in H. destruct H as [-> H]. auto.
Qed.

Lemma trimStart_all_blank b : blank b = true -> trimStart b = [].
Proof.
  intros H. rewrite <- (app_nil_r b). now rewrite trimStart_blank.
Qed.

Lemma trimStart_app s t :
  trimStart (s ++ t) = if blank s then trimStart t else trimStart s ++ t.
Proof.
  induction s as [|c s IH]; [reflexivity|].
  simpl. destruct (isWhiteSpace c); [exact IH | reflexivity].
Qed.

Lemma blank_rev b : blank (rev b) = blank b.
Proof.
  unfold blank. induction b as [|c b IH]; [reflexivity|].
  simpl. rewrite forallb_app, IH. simpl. rewrite andb_true_r. apply andb_comm.
Qed.

Lemma blank_app s t : blank (s ++ t) = blank s && blank t.
Proof. apply forallb_app. Qed.

Lemma trimEnd_split s :
  exists b, s = trimEnd s ++ b /\ blank b = true.
Proof.
  destruct (trimStart_split (rev s)) as [b [E B]].
  exists (rev b). split.
  - unfold trimEnd. rewrite <- rev_app_distr, <- E. now rewrite rev_involutive.
  - now rewrite blank_rev.
Qed.

Lemma trimEnd_end s : testEnd isWhiteSpace (trimEnd s) = false.
Proof. unfold trimEnd. rewrite testEnd_rev. apply trimStart_start. Qed.

Lemma trimEnd_blank s b : blank b = true -> trimEnd (s ++ b) = trimEnd s.
Proof.
  intros B. unfold trimEnd. rewrite rev_app_distr, trimStart_blank; [reflexivity|].
  now rewrite blank_rev.
Qed.

Lemma trimEnd_fix s : testEnd isWhiteSpace s = false -> trimEnd s = s.
Proof.
  intros H. unfold trimEnd. rewrite trimStart_fix.
  - apply rev_involutive.
  - rewrite <- testEnd_rev, rev_involutive. exact H.
Qed.

Lemma trimEnd_start s :
  testStart isWhiteSpace s = false -> testStart isWhiteSpace (trimEnd s) = false.
Proof.
  intros H. destruct (trimEnd_split s) as [b [E _]].
  destruct (trimEnd s) as [|c u]; [reflexivity|].
  rewrite E in H. exact H.
Qed.

Lemma trim_start s : testStart isWhiteSpace (trim s) = false.
Proof. apply trimEnd_start, trimStart_start. Qed.

Lemma trim_end s : testEnd isWhiteSpace (trim s) = false.
Proof. apply trimEnd_end. Qed.

Lemma trim_blank_r s b : blank b = true -> trim (s ++ b) = trim s.
Proof.
  intros B. unfold trim. rewrite trimStart_app.
  destruct (blank s) eqn:S.
  - now rewrite !trimStart_all_blank.
  - now apply trimEnd_blank.
Qed.

Lemma trim_all_blank b : blank b = true -> trim b = [].
Proof. intros B. unfold trim. now rewrite trimStart_all_blank. Qed.

Lemma trim_idempotent s : trim (trim s) = trim s.
Proof.
  unfold trim at 1. rewrite trimStart_fix by apply trim_start.
  apply trimEnd_fix, trim_end.
Qed.

(** ** Text reconstruction *)

Lemma addWord_foldToken text word : Text.addWord text word = Spec.foldToken text word.
Proof.
  unfold Text.addWord, Spec.foldToken. rewrite !testEnd_by_rev.
  destruct (rev text); reflexivity.
Qed.

Lemma fold_addWord_foldToken words acc :
  fold_left Text.addWord words acc = fold_left Spec.foldToken words acc.
Proof.
  revert acc. induction words as [|w words IH]; intros acc; [reflexivity|].
  simpl. now rewrite addWord_foldToken, IH.
Qed.

(** One step of the fold keeps a string free of double spaces when the word
    has no white space in it. *)
Lemma addWord_doubleSpace text word :
  doubleSpace text = false -> spaceFree word = true ->
  doubleSpace (Text.addWord text word) = false.
Proof.
  intros Ht Hw. unfold Text.addWord.
  destruct (testEnd Text.isTerminal text) eqn:T.
  - rewrite doubleSpace_app, Ht. simpl app.
    rewrite (doubleSpace_space_word _ Hw).
    rewrite (testEnd_exclusive Text.isTerminal isSpace text terminal_not_space T).
    reflexivity.
  - destruct (testEnd isWhiteSpace text) eqn:W.
    + rewrite doubleSpace_app, Ht, (spaceFree_doubleSpace _ Hw), (spaceFree_start _ Hw).
      now rewrite andb_false_r.
    + rewrite doubleSpace_app, Ht. simpl app.
      rewrite (doubleSpace_space_word _ Hw).
      rewrite (testEnd_weaker isWhiteSpace isSpace text isSpace_white W).
      reflexivity.
Qed.

Lemma fold_addWord_doubleSpace words acc :
  doubleSpace acc = false -> Forall (fun w => spaceFree w = true) words ->
  doubleSpace (fold_left Text.addWord words acc) = false.
Proof.
  revert acc. induction words as [|w words IH]; intros acc Ha Hw; [exact Ha|].
  inversion Hw; subst. simpl. apply IH; [|assumption].
  now apply addWord_doubleSpace.
Qed.

Lemma addWord_keeps_start text word :
  text <> [] -> testStart isSpace (Text.addWord text word) = testStart isSpace text.
Proof.
  intros H. unfold Text.addWord.
  destruct (testEnd Text.isTerminal text), (testEnd isWhiteSpace text);
    rewrite testStart_app; (destruct text; [congruence | reflexivity]).
Qed.

Lemma addWord_not_nil text word : text <> [] -> Text.addWord text word <> [].
Proof.
  intros H E. unfold Text.addWord in E.
  destruct (testEnd Text.isTerminal text), (testEnd isWhiteSpace text);
    apply app_eq_nil in E; tauto.
Qed.

Lemma fold_addWord_start words acc :
  acc <> [] ->
  testStart isSpace (fold_left Text.addWord words acc) = testStart isSpace acc.
Proof.
  revert acc. induction words as [|w words IH]; intros acc H; [reflexivity|].
  simpl. rewrite IH by now apply addWord_not_nil. now apply addWord_keeps_start.
Qed.

(** The fold puts a space before the first word: a page with an item has a
    string that starts with U+0020. *)
Lemma pageText_leading_space it items :
  testStart isSpace (Text.pageText (it :: items)) = true.
Proof.
  unfold Text.pageText. simpl. rewrite fold_addWord_start; [reflexivity|].
  unfold Text.addWord. simpl. discriminate.
Qed.

Lemma fold_appendPage pages acc :
  fold_left Text.appendPage pages acc
  = acc ++ List.concat (map (fun items => Text.pageText items ++ [newline; newline]) pages).
Proof.
  revert acc. induction pages as [|p pages IH]; intros acc.
  - simpl. now rewrite app_nil_r.
  - simpl. rewrite IH. unfold Text.appendPage. now rewrite <- app_assoc.
Qed.

Lemma concat_join (sep : jsstring) (parts : list jsstring) :
  parts <> [] ->
  List.concat (map (fun p => p ++ sep) parts) = join sep parts ++ sep.
Proof.
  induction parts as [|p parts IH]; [congruence|]. intros _.
  destruct parts as [|q parts].
  - simpl. now rewrite app_nil_r.
  - change (join sep (p :: q :: parts)) with (p ++ sep ++ join sep (q :: parts)).
    change (List.concat (map (fun p0 => p0 ++ sep) (p :: q :: parts)))
      with ((p ++ sep) ++ List.concat (map (fun p0 => p0 ++ sep) (q :: parts))).
    rewrite IH by discriminate. now rewrite <- !app_assoc.
Qed.

Lemma blank_join sep parts :
  blank sep = true -> Forall (fun p => blank p = true) parts ->
  blank (join sep parts) = true.
Proof.
  intros Hs. induction 1 as [|p parts Hp Hps IH]; [reflexivity|].
  destruct parts as [|q parts]; [exact Hp|].
  change (join sep (p :: q :: parts)) with (p ++ sep ++ join sep (q :: parts)).
  now rewrite !blank_app, Hp, Hs, IH.
Qed.

(** The string [extractText] returns: the page strings, as the fold leaves
    them, joined by one blank line, and trimmed once. *)
Lemma documentText_join pages :
  Text.documentText pages
  = trim (join [newline; newline] (map Text.pageText pages)).
Proof.
  unfold Text.documentText. rewrite fold_appendPage. simpl app.
  destruct pages as [|p pages]; [reflexivity|].
  rewrite <- map_map with (f := Text.pageText) (g := fun s => s ++ [newline; newline]).
  rewrite concat_join by discriminate.
  now apply trim_blank_r.
Qed.

Lemma spaceFree_end w : spaceFree w = true -> testEnd isWhiteSpace w = false.
Proof.
  intros H. rewrite testEnd_by_rev. destruct (rev w) as [|c r] eqn:E; [reflexivity|].
  unfold spaceFree in H. rewrite forallb_forall in H.
  apply negb_true_iff, H, in_rev. rewrite E. now left.
Qed.

Lemma addWord_end cls text word :
  word <> [] -> testEnd cls (Text.addWord text word) = testEnd cls word.
Proof.
  intros H. unfold Text.addWord.
  destruct (testEnd Text.isTerminal text), (testEnd isWhiteSpace text);
    rewrite ?app_assoc; now apply testEnd_app.
Qed.

(** A page string ends with its last token. *)
Lemma pageText_end items :
  Forall (fun it => spaceFree (str it) = true) items ->
  Forall (fun it => str it <> []) items ->
  testEnd isWhiteSpace (Text.pageText items) = false.
Proof.
  intros S N. unfold Text.pageText.
  destruct items as [|it0 rest] using rev_ind; [reflexivity|].
  apply Forall_app in S. destruct S as [_ S]. inversion S; subst.
  apply Forall_app in N. destruct N as [_ N]. inversion N; subst.
  rewrite map_app, fold_left_app. simpl.
  rewrite addWord_end by assumption. now apply spaceFree_end.
Qed.

(** What [extractText] ends with on a document whose pages all give their
    items is the document text of these items. *)
Lemma textLoop_items pages itemsOf fullText :
  Forall2 (fun pg items => exists p, pg = Returned p /\ getTextContent p = Returned items)
          pages itemsOf ->
  textLoop pages fullText = Returned (fold_left Text.appendPage itemsOf fullText).
Proof.
  intros H. revert fullText.
  induction H as [|pg items pages itemsOf (p & -> & G) _ IH]; intros fullText;
    [reflexivity|].
  simpl. rewrite G. apply IH.
Qed.

Lemma textOutcome_documentText P pdfData pdf itemsOf :
  getDocument P pdfData = Returned pdf ->
  Forall2 (fun pg items => exists p, pg = Returned p /\ getTextContent p = Returned items)
          pdf itemsOf ->
  textOutcome P pdfData = Returned (Text.documentText itemsOf).
Proof.
  intros G H. unfold textOutcome. rewrite G, (textLoop_items _ _ [] H). reflexivity.
Qed.

(** C3, as stated, fails on the code: the page string of the single token
    [Hello] is [ Hello], which starts with a space (the fold puts a space
    before the first token and the page string is not trimmed), and the
    tokens [a], [ ], [b] give [ a  b], with two consecutive spaces. *)
Lemma C3_page_string_counterexample :
  spacingInvariant (Text.pageText [item "Hello"]) = false
  /\ testStart isWhiteSpace (Text.pageText [item "Hello"]) = true
  /\ doubleSpace (Text.pageText [item "a"; item " "; item "b"]) = true.
Proof. repeat split; reflexivity. Qed.

Lemma terminal_not_white c : Text.isTerminal c = true -> isWhiteSpace c = false.
Proof.
  unfold Text.isTerminal. intros H.
  apply orb_true_iff in H. destruct H as [H|H].
  - apply orb_true_iff in H. destruct H as [H|H]; apply N.eqb_eq in H; subst; reflexivity.
  - apply N.eqb_eq in H; subst; reflexivity.
Qed.

Lemma addWord_space_rule (text word : jsstring) :
  Text.addWord text word
  = if testEnd isWhiteSpace text then text ++ word else text ++ [space] ++ word.
Proof.
  unfold Text.addWord. destruct (testEnd Text.isTerminal text) eqn:T; [|reflexivity].
  now rewrite (testEnd_exclusive Text.isTerminal isWhiteSpace text terminal_not_white T).
Qed.

Lemma addWord_no_doubleSpace text word :
  doubleSpace text = false ->
  testStart isSpace word = false -> doubleSpace word = false ->
  doubleSpace (Text.addWord text word) = false.
Proof.
  intros Ht Hs Hw. rewrite addWord_space_rule.
  destruct (testEnd isWhiteSpace text) eqn:W.
  - rewrite doubleSpace_app, Ht, Hw, Hs. now rewrite andb_false_r.
  - rewrite doubleSpace_app, Ht. cbn [app].
    rewrite doubleSpace_cons, Hs, Hw, andb_false_r.
    rewrite (testEnd_weaker isWhiteSpace isSpace text isSpace_white W).
    reflexivity.
Qed.

Lemma fold_addWord_no_doubleSpace words acc :
  doubleSpace acc = false ->
  Forall (fun w => testStart isSpace w = false /\ doubleSpace w = false) words ->
  doubleSpace (fold_left Text.addWord words acc) = false.
Proof.
  revert acc. induction words as [|w words IH]; intros acc Ha Hw; [exact Ha|].
  inversion Hw as [|? ? [Hs Hd] Hw']; subst. simpl. apply IH; [|exact Hw'].
  now apply addWord_no_doubleSpace.
Qed.

(** How a page string ends: as its last token does, and with white space
    when that token is empty. *)
Lemma pageText_last front last :
  testEnd isWhiteSpace (Text.pageText (front ++ [last]))
  = match str last with
    | [] => true
    | _ :: _ => testEnd isWhiteSpace (str last)
    end.
Proof.
  unfold Text.pageText. rewrite map_app, fold_left_app. cbn [map fold_left].
  destruct (str last) as [|c w] eqn:E.
  - rewrite addWord_space_rule.
    destruct (testEnd isWhiteSpace (fold_left Text.addWord (map str front) [])) eqn:W.
    + now rewrite app_nil_r.
    + rewrite app_nil_r. apply testEnd_last.
  - apply addWord_end. discriminate.
Qed.

(** C3, amended: when no token starts with a space or contains two
    consecutive spaces, the page string the fold produces has no two
    consecutive spaces; the page string ends with white space exactly when
    its last token is empty or ends with white space; and the string the
    reconstructor returns for a document, trimmed once after all pages,
    neither starts nor ends with white space. *)
Theorem C3_spacing (items : list TextItem) (pages : list (list TextItem)) :
  Forall (fun it => testStart isSpace (str it) = false
                    /\ doubleSpace (str it) = false) items ->
  doubleSpace (Text.pageText items) = false
  /\ (forall front last,
        testEnd isWhiteSpace (Text.pageText (front ++ [last]))
        = match str last with
          | [] => true
          | _ :: _ => testEnd isWhiteSpace (str last)
          end)
  /\ testStart isWhiteSpace (Text.documentText pages) = false
  /\ testEnd isWhiteSpace (Text.documentText pages) = false.
Proof.
  intros H. repeat split.
  - unfold Text.pageText. apply fold_addWord_no_doubleSpace; [reflexivity|].
    induction H; simpl; constructor; assumption.
  - apply pageText_last.
  - apply trim_start.
  - apply trim_end.
Qed.

Lemma C3_spacing_witness :
  doubleSpace (Text.pageText [item "Hello world."; item "Bye "; item "now"]) = false
  /\ (forall front last,
        testEnd isWhiteSpace (Text.pageText (front ++ [last]))
        = match str last with
          | [] => true
          | _ :: _ => testEnd isWhiteSpace (str last)
          end)
  /\ testStart isWhiteSpace
       (Text.documentText [[item "Hello world."; item "Bye "]; [item "now"]]) = false
  /\ testEnd isWhiteSpace
       (Text.documentText [[item "Hello world."; item "Bye "]; [item "now"]]) = false.
Proof.
  apply (C3_spacing [item "Hello world."; item "Bye "; item "now"]
           [[item "Hello world."; item "Bye "]; [item "now"]]).
  repeat constructor.
Defined.

(** C4, as stated, fails on the code: the page strings are not trimmed, so
    on the two pages [a] and [b] the code returns [a\n\n b] where folding,
    trimming each page and joining gives [a\n\nb]. *)
Lemma C4_reconstruct_counterexample :
  Text.documentText [[item "a"]; [item "b"]] = lit "a" ++ [newline; newline] ++ lit " b"
  /\ Spec.reconstruct [[item "a"]; [item "b"]] = lit "a" ++ [newline; newline] ++ lit "b"
  /\ Text.documentText [[item "a"]; [item "b"]] <> Spec.reconstruct [[item "a"]; [item "b"]].
Proof. repeat split; try reflexivity. discriminate. Qed.

(** C4, amended: each page's tokens are folded left to right with the
    stated spacing policy; the page strings are not trimmed one by one, they
    are joined with exactly one blank line between them and the joined
    string is trimmed; a document whose page strings are all blank (zero
    pages, or pages without tokens) gives the empty string; and for a
    document of one page the result is the one of the specification. *)
Theorem C4_reconstruct (pages : list (list TextItem)) :
  (forall items, Text.pageText items = fold_left Spec.foldToken (map str items) [])
  /\ Text.documentText pages
     = trim (join [newline; newline] (map Text.pageText pages))
  /\ (Forall (fun items => blank (Text.pageText items) = true) pages ->
      Text.documentText pages = [])
  /\ (forall items, Text.documentText [items] = Spec.reconstruct [items]).
Proof.
  repeat split.
  - intros items. apply fold_addWord_foldToken.
  - apply documentText_join.
  - intros H. rewrite documentText_join. apply trim_all_blank.
    apply blank_join; [reflexivity|].
    induction H; simpl; constructor; assumption.
  - intros items. rewrite documentText_join. unfold Spec.reconstruct, Spec.pageString.
    simpl. rewrite trim_idempotent.
    unfold Text.pageText. now rewrite fold_addWord_foldToken.
Qed.

Lemma C4_reconstruct_witness :
  Forall (fun items => blank (Text.pageText items) = true) [[]; []]
  /\ Text.documentText [[]; []] = [].
Proof.
  assert (H : Forall (fun items => blank (Text.pageText items) = true) [[]; []])
    by (repeat constructor).
  split; [exact H|].
  exact (proj1 (proj2 (proj2 (C4_reconstruct [[]; []]))) H).
Defined.

(** ** Sorting with a comparison function that may be inconsistent *)

(** Induction on a list, two elements at a time. *)
Lemma pairs_ind {A} (Q : list A -> Prop) :
  Q [] -> (forall a, Q [a]) -> (forall a b rest, Q rest -> Q (a :: b :: rest)) ->
  forall l, Q l.
Proof.
  intros H0 H1 H2 l.
  assert (B : Q l /\ forall a, Q (a :: l)).
  { induction l as [|x l [IHl IHx]]; [now split|].
    split; [apply IHx|]. intros a. now apply H2. }
  exact (proj1 B).
Qed.

Section SortingFacts.

Context {A : Type}.
Variable cmp : A -> A -> Z.
Variable leb : A -> A -> bool.
Hypothesis leb_trans : Sorting.transitive leb.
Hypothesis cmp_decides : Sorting.decides cmp leb.

Lemma decides_nonpos a b : (cmp a b <= 0)%Z -> leb a b = true.
Proof.
  intros H. destruct (leb a b) eqn:E; [reflexivity|].
  destruct (cmp_decides b a E) as [_ G]. lia.
Qed.

Lemma decides_pos a b : (cmp a b > 0)%Z -> leb b a = true.
Proof.
  intros H. destruct (leb b a) eqn:E; [reflexivity|].
  destruct (cmp_decides a b E) as [G _]. lia.
Qed.

Lemma insert_perm x l : Permutation (x :: l) (Sorting.insert cmp x l).
Proof.
  induction l as [|y t IH]; simpl; [apply Permutation_refl|].
  destruct (cmp x y <=? 0)%Z; [apply Permutation_refl|].
  eapply perm_trans; [apply perm_swap|]. now apply perm_skip.
Qed.

Lemma insert_sorted x l :
  StronglySorted (fun a b => leb a b = true) l ->
  StronglySorted (fun a b => leb a b = true) (Sorting.insert cmp x l).
Proof.
  induction 1 as [|y t Ht IH Hy]; simpl.
  - constructor; constructor.
  - destruct (cmp x y <=? 0)%Z eqn:C.
    + apply Z.leb_le in C. apply decides_nonpos in C.
      constructor; [constructor; assumption|].
      constructor; [exact C|].
      eapply Forall_impl; [|exact Hy]. intros z Hz. exact (leb_trans _ _ _ C Hz).
    + apply Z.leb_gt in C. constructor; [exact IH|].
      apply (Permutation_Forall (insert_perm x t)).
      constructor; [|exact Hy]. apply decides_pos. lia.
Qed.

Lemma fold_insert_perm l acc :
  Permutation (l ++ acc) (fold_left (fun acc x => Sorting.insert cmp x acc) l acc).
Proof.
  revert acc. induction l as [|x l IH]; intros acc; simpl; [apply Permutation_refl|].
  eapply perm_trans; [|apply IH].
  eapply perm_trans; [apply Permutation_middle|].
  apply Permutation_app_head, insert_perm.
Qed.

Lemma fold_insert_sorted l acc :
  StronglySorted (fun a b => leb a b = true) acc ->
  StronglySorted (fun a b => leb a b = true)
    (fold_left (fun acc x => Sorting.insert cmp x acc) l acc).
Proof.
  revert acc. induction l as [|x l IH]; intros acc H; simpl; [exact H|].
  apply IH, insert_sorted, H.
Qed.

Lemma decides_neg a b : (cmp a b < 0)%Z -> leb a b = true.
Proof. intros H. apply decides_nonpos. lia. Qed.

Lemma decides_nonneg a b : (cmp a b >= 0)%Z -> leb b a = true.
Proof.
  intros H. destruct (leb b a) eqn:E; [reflexivity|].
  destruct (cmp_decides a b E) as [G _]. lia.
Qed.

Lemma merge_perm l1 l2 : Permutation (l1 ++ l2) (Sorting.merge cmp l1 l2).
Proof.
  revert l2. induction l1 as [|a1 l1 IH1]; intros l2.
  - destruct l2; apply Permutation_refl.
  - induction l2 as [|a2 l2 IH2].
    + rewrite app_nil_r. apply Permutation_refl.
    + simpl. destruct (cmp a2 a1 <? 0)%Z.
      * eapply perm_trans; [apply Permutation_sym, (Permutation_middle (a1 :: l1) l2 a2)|].
        apply perm_skip. exact IH2.
      * apply perm_skip. apply IH1.
Qed.

Lemma merge_sorted l1 l2 :
  StronglySorted (fun a b => leb a b = true) l1 ->
  StronglySorted (fun a b => leb a b = true) l2 ->
  StronglySorted (fun a b => leb a b = true) (Sorting.merge cmp l1 l2).
Proof.
  intros S1. revert l2. induction S1 as [|a1 l1 S1 IH1 F1]; intros l2 S2.
  - destruct l2; exact S2.
  - induction S2 as [|a2 l2 S2 IH2 F2].
    + simpl. now constructor.
    + simpl. destruct (cmp a2 a1 <? 0)%Z eqn:C.
      * apply Z.ltb_lt in C. apply decides_neg in C.
        constructor; [exact IH2|].
        apply (Permutation_Forall (merge_perm (a1 :: l1) l2)).
        apply Forall_app. split; [|exact F2].
        constructor; [exact C|].
        eapply Forall_impl; [|exact F1]. intros z Hz. exact (leb_trans _ _ _ C Hz).
      * apply Z.ltb_ge in C. assert (L : leb a1 a2 = true) by (apply decides_nonneg; lia).
        constructor; [apply IH1; now constructor|].
        apply (Permutation_Forall (merge_perm l1 (a2 :: l2))).
        apply Forall_app. split; [exact F1|].
        constructor; [exact L|].
        eapply Forall_impl; [|exact F2]. intros z Hz. exact (leb_trans _ _ _ L Hz).
Qed.

Lemma mergePairs_perm runs :
  Permutation (List.concat runs) (List.concat (Sorting.mergePairs cmp runs)).
Proof.
  induction runs as [| a | a b rest IH] using pairs_ind; try apply Permutation_refl.
  simpl. rewrite app_assoc. apply Permutation_app; [apply merge_perm | exact IH].
Qed.

Lemma mergePairs_sorted runs :
  Forall (StronglySorted (fun a b => leb a b = true)) runs ->
  Forall (StronglySorted (fun a b => leb a b = true)) (Sorting.mergePairs cmp runs).
Proof.
  induction runs as [| a | a b rest IH] using pairs_ind; intros H; try exact H.
  simpl. inversion H as [|? ? Ha H']; subst. inversion H' as [|? ? Hb H'']; subst.
  constructor; [now apply merge_sorted | now apply IH].
Qed.

Lemma mergePairs_length runs :
  (List.length (Sorting.mergePairs cmp runs) <= List.length runs)%nat
  /\ ((2 <= List.length runs)%nat ->
      (List.length (Sorting.mergePairs cmp runs) < List.length runs)%nat).
Proof.
  induction runs as [| a | a b rest [IH _]] using pairs_ind; simpl; lia.
Qed.

Lemma mergeRounds_perm rounds runs :
  Permutation (List.concat runs) (Sorting.mergeRounds cmp rounds runs).
Proof.
  revert runs. induction rounds as [|n IH]; intros [|a [|b rest]]; simpl;
    try apply Permutation_refl; try (rewrite app_nil_r; apply Permutation_refl).
  eapply perm_trans; [|apply IH].
  apply (mergePairs_perm (a :: b :: rest)).
Qed.

Lemma mergeRounds_sorted rounds runs :
  (List.length runs <= rounds)%nat ->
  Forall (StronglySorted (fun a b => leb a b = true)) runs ->
  StronglySorted (fun a b => leb a b = true) (Sorting.mergeRounds cmp rounds runs).
Proof.
  revert runs. induction rounds as [|n IH]; intros [|a [|b rest]] L H;
    try (simpl in L; lia); try (simpl; constructor);
    try (simpl; inversion H; assumption).
  change (StronglySorted (fun a0 b0 => leb a0 b0 = true)
            (Sorting.mergeRounds cmp n (Sorting.mergePairs cmp (a :: b :: rest)))).
  apply IH; [|now apply mergePairs_sorted].
  pose proof (proj2 (mergePairs_length (a :: b :: rest))) as M.
  simpl in M, L |- *. lia.
Qed.

End SortingFacts.

Lemma insertBack_insert {A} (cmp : A -> A -> Z) x rl :
  Sorting.insertBack cmp x rl = Sorting.insert (fun a b => cmp b a) x rl.
Proof.
  induction rl as [|y t IH]; [reflexivity|]. simpl. rewrite IH.
  destruct (cmp y x >? 0)%Z eqn:G, (cmp y x <=? 0)%Z eqn:L; try reflexivity.
  - apply Z.gtb_lt in G. apply Z.leb_le in L. lia.
  - rewrite Z.gtb_ltb in G. apply Z.ltb_ge in G. apply Z.leb_gt in L. lia.
Qed.

Lemma fold_insertBack_insert {A} (cmp : A -> A -> Z) l acc :
  fold_left (fun racc x => Sorting.insertBack cmp x racc) l acc
  = fold_left (fun racc x => Sorting.insert (fun a b => cmp b a) x racc) l acc.
Proof.
  revert acc. induction l as [|x l IH]; intros acc; [reflexivity|].
  simpl. now rewrite insertBack_insert, IH.
Qed.

Lemma StronglySorted_snoc {A} (R : A -> A -> Prop) l x :
  StronglySorted R l -> Forall (fun y => R y x) l -> StronglySorted R (l ++ [x]).
Proof.
  induction 1 as [|y t Ht IH Hy]; intros H; simpl.
  - constructor; constructor.
  - inversion H; subst. constructor; [now apply IH|].
    apply Forall_app. split; [exact Hy | now constructor].
Qed.

Lemma StronglySorted_rev {A} (R : A -> A -> Prop) l :
  StronglySorted (fun a b => R b a) l -> StronglySorted R (rev l).
Proof.
  induction 1 as [|y t Ht IH Hy]; simpl; [constructor|].
  apply StronglySorted_snoc; [exact IH|].
  apply Forall_rev. exact Hy.
Qed.

Lemma StronglySorted_nth {A} (R : A -> A -> Prop) l :
  StronglySorted R l ->
  forall i j a b, (i < j)%nat ->
    nth_error l i = Some a -> nth_error l j = Some b -> R a b.
Proof.
  induction 1 as [|y t Ht IH Hy]; intros i j a b Hij Ha Hb.
  - destruct i; discriminate.
  - destruct j as [|j]; [lia|]. simpl in Hb.
    destruct i as [|i]; simpl in Ha.
    + injection Ha as <-. apply nth_error_In in Hb.
      rewrite Forall_forall in Hy. now apply Hy.
    + apply (IH i j); [lia | assumption | assumption].
Qed.

(** Both insertion sorts keep the elements and order them by every order
    the comparison function decides. *)
Lemma insertionSort_permutes : Sorting.permutes Sorting.insertionSort.
Proof.
  intros A cmp l. unfold Sorting.insertionSort.
  rewrite <- (app_nil_r l) at 1. apply fold_insert_perm.
Qed.

Lemma insertionSort_orders : Sorting.orders Sorting.insertionSort.
Proof.
  intros A cmp leb T D l. unfold Sorting.insertionSort.
  apply (fold_insert_sorted cmp leb T D). constructor.
Qed.

Lemma concat_singletons {A} (l : list A) : List.concat (map (fun x => [x]) l) = l.
Proof. induction l as [|x l IH]; simpl; [reflexivity | now rewrite IH]. Qed.

Lemma mergeSort_permutes : Sorting.permutes Sorting.mergeSort.
Proof.
  intros A cmp l. unfold Sorting.mergeSort.
  rewrite <- (concat_singletons l) at 1. apply mergeRounds_perm.
Qed.

Lemma mergeSort_orders : Sorting.orders Sorting.mergeSort.
Proof.
  intros A cmp leb T D l. unfold Sorting.mergeSort.
  apply (mergeRounds_sorted cmp leb T D).
  - now rewrite length_map.
  - apply Forall_forall. intros r Hr. apply in_map_iff in Hr.
    destruct Hr as (x & <- & _). constructor; constructor.
Qed.

Lemma insertionSortBack_permutes : Sorting.permutes Sorting.insertionSortBack.
Proof.
  intros A cmp l. unfold Sorting.insertionSortBack.
  rewrite fold_insertBack_insert.
  eapply perm_trans; [|apply Permutation_rev].
  rewrite <- (app_nil_r l) at 1. apply fold_insert_perm.
Qed.

Lemma insertionSortBack_orders : Sorting.orders Sorting.insertionSortBack.
Proof.
  intros A cmp leb T D l. unfold Sorting.insertionSortBack.
  rewrite fold_insertBack_insert.
  apply StronglySorted_rev.
  apply (fold_insert_sorted (fun a b => cmp b a) (fun a b => leb b a)).
  - intros a b c Hab Hbc. exact (T c b a Hbc Hab).
  - intros a b H. destruct (D b a H) as [H1 H2]. split; assumption.
  - constructor.
Qed.

(** ** The Raster Extractor *)

Lemma imageLeb_transitive : Sorting.transitive imageLeb.
Proof.
  intros a b c. unfold imageLeb. intros H1 H2.
  apply orb_true_iff in H1. apply orb_true_iff in H2. apply orb_true_iff.
  destruct H1 as [H1|H1], H2 as [H2|H2].
  - left. apply Z.ltb_lt in H1, H2. apply Z.ltb_lt. lia.
  - left. apply andb_true_iff in H2. destruct H2 as [H2 _].
    apply Z.ltb_lt in H1. apply Z.eqb_eq in H2. apply Z.ltb_lt. lia.
  - left. apply andb_true_iff in H1. destruct H1 as [H1 _].
    apply Z.ltb_lt in H2. apply Z.eqb_eq in H1. apply Z.ltb_lt. lia.
  - right. apply andb_true_iff in H1. destruct H1 as [H1 K1].
    apply andb_true_iff in H2. destruct H2 as [H2 K2].
    apply Z.eqb_eq in H1, H2. apply andb_true_iff. split.
    + apply Z.eqb_eq. lia.
    + destruct (type a), (type b), (type c); try reflexivity; discriminate.
Qed.

Lemma compareImages_decides : Sorting.decides compareImages imageLeb.
Proof.
  intros a b H. unfold imageLeb in H.
  apply orb_false_iff in H. destruct H as [H1 H2].
  apply Z.ltb_ge in H1. unfold compareImages.
  destruct (pageNumber b =? pageNumber a)%Z eqn:E.
  - apply Z.eqb_eq in E. rewrite E, Z.eqb_refl. simpl.
    simpl in H2. destruct (type b), (type a); try discriminate. split; lia.
  - rewrite Z.eqb_sym, E. simpl. apply Z.eqb_neq in E. split; lia.
Qed.

Lemma paintOperator_contribution P pg i images op :
  paintOperator P pg i images op
  = images ++ match contribution P pg i op with Some e => [e] | None => [] end.
Proof.
  unfold paintOperator, contribution, passesFilter.
  destruct (existsb (Z.eqb (fn op)) (validObjectTypes P)); [|now rewrite app_nil_r].
  destruct (objs_get pg (imageName op)) as [[img|]|]; try now rewrite app_nil_r.
  destruct (obj_data img); [|now rewrite app_nil_r].
  replace (negb (obj_width img =? 0)%Z && negb (obj_height img =? 0)%Z
           && (obj_width img >? 50)%Z && (obj_height img >? 50)%Z)
    with ((obj_width img >? 50)%Z && (obj_height img >? 50)%Z).
  - destruct ((obj_width img >? 50)%Z && (obj_height img >? 50)%Z);
      [|now rewrite app_nil_r].
    destruct (toPNG P _ _ _); [reflexivity | now rewrite app_nil_r].
  - destruct (obj_width img >? 50)%Z eqn:W, (obj_height img >? 50)%Z eqn:H;
      rewrite ?andb_false_r; try reflexivity.
    apply Z.gtb_lt in W, H.
    destruct (Z.eqb_spec (obj_width img) 0), (Z.eqb_spec (obj_height img) 0);
      (reflexivity || lia).
Qed.

Lemma fold_paintOperator P pg i ops images :
  fold_left (paintOperator P pg i) ops images = images ++ embeddedOfPage P pg i ops.
Proof.
  revert images. induction ops as [|op ops IH]; intros images; simpl.
  - now rewrite app_nil_r.
  - rewrite IH, paintOperator_contribution. now rewrite <- app_assoc.
Qed.

Lemma contribution_entry P pg i op e :
  contribution P pg i op = Some e ->
  type e = image /\ pageNumber e = i /\ (width e > 50)%Z /\ (height e > 50)%Z
  /\ exists img pixels,
       objs_get pg (imageName op) = Returned (Some img)
       /\ obj_data img = Some pixels
       /\ width e = obj_width img /\ height e = obj_height img.
Proof.
  unfold contribution, passesFilter.
  destruct (existsb (Z.eqb (fn op)) (validObjectTypes P)); [|discriminate].
  destruct (objs_get pg (imageName op)) as [[img|]|]; try discriminate.
  destruct (obj_data img) as [pixels|] eqn:D; [|discriminate].
  destruct ((obj_width img >? 50)%Z && (obj_height img >? 50)%Z) eqn:F; [|discriminate].
  destruct (toPNG P _ _ _); [|discriminate].
  intros E. injection E as <-. simpl.
  apply andb_true_iff in F. destruct F as [W H]. apply Z.gtb_lt in W, H.
  repeat split; try lia. exists img, pixels. repeat split. exact D.
Qed.

(** A bitmap at or under the threshold, or without pixel data, gives no
    entry. *)
Lemma contribution_filtered P pg i op img :
  objs_get pg (imageName op) = Returned (Some img) ->
  (obj_width img <= 50)%Z \/ (obj_height img <= 50)%Z \/ obj_data img = None ->
  contribution P pg i op = None.
Proof.
  intros R H. unfold contribution, passesFilter. rewrite R.
  destruct (existsb (Z.eqb (fn op)) (validObjectTypes P)); [|reflexivity].
  destruct (obj_data img); [|reflexivity].
  destruct (obj_width img >? 50)%Z eqn:W, (obj_height img >? 50)%Z eqn:G;
    try reflexivity.
  apply Z.gtb_lt in W, G. destruct H as [H|[H|H]]; try lia. discriminate.
Qed.

Lemma embeddedOfPage_entries P pg i ops :
  Forall (fun e => type e = image /\ (width e > 50)%Z /\ (height e > 50)%Z)
         (embeddedOfPage P pg i ops).
Proof.
  unfold embeddedOfPage. induction ops as [|op ops IH]; simpl; [constructor|].
  destruct (contribution P pg i op) as [e|] eqn:C; [|exact IH].
  constructor; [|exact IH].
  destruct (contribution_entry _ _ _ _ _ C) as (T & _ & W & H & _). tauto.
Qed.

Lemma embeddedOf_entries P pages i :
  Forall (fun e => type e = image /\ (width e > 50)%Z /\ (height e > 50)%Z)
         (embeddedOf P pages i).
Proof.
  revert i. induction pages as [|[pg|] pages IH]; intros i; simpl;
    [constructor | | apply IH].
  destruct (getOperatorList pg); [|apply IH].
  apply Forall_app. split; [apply embeddedOfPage_entries | apply IH].
Qed.

Lemma filter_all {A} (f : A -> bool) l :
  Forall (fun x => f x = true) l -> filter f l = l.
Proof. induction 1 as [|x l Hx _ IH]; simpl; [reflexivity|]. now rewrite Hx, IH. Qed.

Lemma embedded_filter_entries l :
  Forall (fun e => type e = image /\ (width e > 50)%Z /\ (height e > 50)%Z) l ->
  filter isEmbedded l = l.
Proof.
  intros H. apply filter_all. eapply Forall_impl; [|exact H].
  intros e [T _]. unfold isEmbedded. now rewrite T.
Qed.

Lemma capturePage_embedded pg i images :
  filter isEmbedded (capturePage pg i images) = filter isEmbedded images.
Proof.
  unfold capturePage. destruct (render pg); [|reflexivity].
  rewrite filter_app. simpl. apply app_nil_r.
Qed.

(** The embedded entries the page loop leaves: those of the operators that
    give one, page after page. *)
Lemma imagesLoop_embedded P pages i acc images :
  imagesLoop P pages i acc = Returned images ->
  filter isEmbedded images = filter isEmbedded acc ++ embeddedOf P pages i.
Proof.
  revert i acc. induction pages as [|[pg|] pages IH]; intros i acc; simpl.
  - intros E. injection E as <-. now rewrite app_nil_r.
  - destruct (getOperatorList pg) as [ops|]; [|discriminate].
    intros E. apply IH in E. rewrite E, capturePage_embedded, fold_paintOperator.
    rewrite filter_app, <- app_assoc.
    now rewrite (embedded_filter_entries _ (embeddedOfPage_entries P pg i ops)).
  - discriminate.
Qed.

Lemma Permutation_filter {A} (f : A -> bool) l l' :
  Permutation l l' -> Permutation (filter f l) (filter f l').
Proof.
  induction 1 as [|x l l' _ IH|x y l|l l' l'' _ IH1 _ IH2]; simpl.
  - constructor.
  - destruct (f x); [now constructor | exact IH].
  - destruct (f x), (f y); try apply Permutation_refl. apply perm_swap.
  - eapply perm_trans; eassumption.
Qed.

(** What [extractImages] returns is the sorted array of the page loop, or
    nothing. *)
Lemma extractImagesOf_cases P pdfData :
  (exists pdf images,
      getDocument P pdfData = Returned pdf
      /\ imagesLoop P pdf 1 [] = Returned images
      /\ extractImagesOf P pdfData = arraySort P _ compareImages images)
  \/ ((forall pdf, getDocument P pdfData = Returned pdf ->
         exists e, imagesLoop P pdf 1 [] = Thrown e)
      /\ extractImagesOf P pdfData = []).
Proof.
  unfold extractImagesOf. destruct (getDocument P pdfData) as [pdf|e].
  - destruct (imagesLoop P pdf 1 []) as [images|e] eqn:L.
    + left. exists pdf, images. auto.
    + right. split; [|reflexivity]. intros pdf' E. injection E as <-. now exists e.
  - right. split; [|reflexivity]. discriminate.
Qed.

(** C6: the sequence [extractImages] returns is in non-decreasing order of
    page number, and among the entries of one page no embedded image comes
    before the page's picture.  The engine's [sort] is taken to order an
    array by every transitive order its comparison function decides. *)
Theorem C6_ordering (P : Platform) (pdfData : list N) :
  Sorting.orders (arraySort P) ->
  forall i j a b, (i < j)%nat ->
    nth_error (extractImagesOf P pdfData) i = Some a ->
    nth_error (extractImagesOf P pdfData) j = Some b ->
    (pageNumber a <= pageNumber b)%Z
    /\ (pageNumber a = pageNumber b -> type b = page -> type a = page).
Proof.
  intros Hsort i j a b Hij Ha Hb.
  assert (S : StronglySorted (fun x y => imageLeb x y = true)
                (extractImagesOf P pdfData)).
  { destruct (extractImagesOf_cases P pdfData) as [(pdf & images & _ & _ & E)|[_ E]];
      rewrite E.
    - apply Hsort; [exact imageLeb_transitive | exact compareImages_decides].
    - constructor. }
  pose proof (StronglySorted_nth _ _ S i j a b Hij Ha Hb) as L.
  unfold imageLeb in L. apply orb_true_iff in L. destruct L as [L|L].
  - apply Z.ltb_lt in L. split; [lia|]. intros E. lia.
  - apply andb_true_iff in L. destruct L as [L T]. apply Z.eqb_eq in L.
    split; [lia|]. intros _ B. rewrite B in T. destruct (type a); [reflexivity|discriminate].
Qed.

(** C7: every embedded entry of the sequence [extractImages] returns is
    wider and higher than 50; the embedded entries are those of the paint
    operators whose bitmap resolves, passes the filter and is encoded, and
    no others; and a bitmap of width or height at most 50, or without pixel
    data, gives no entry.  The engine's [sort] is taken to keep the elements
    of the array. *)
Theorem C7_threshold (P : Platform) (pdfData : list N) :
  Sorting.permutes (arraySort P) ->
  (forall e, In e (extractImagesOf P pdfData) -> type e = image ->
             (width e > 50)%Z /\ (height e > 50)%Z)
  /\ match getDocument P pdfData with
     | Returned pdf =>
         match imagesLoop P pdf 1 [] with
         | Returned _ =>
             Permutation (filter isEmbedded (extractImagesOf P pdfData))
                         (embeddedOf P pdf 1)
         | Thrown _ => extractImagesOf P pdfData = []
         end
     | Thrown _ => extractImagesOf P pdfData = []
     end
  /\ (forall pg i op img,
        objs_get pg (imageName op) = Returned (Some img) ->
        (obj_width img <= 50)%Z \/ (obj_height img <= 50)%Z \/ obj_data img = None ->
        contribution P pg i op = None).
Proof.
  intros Hsort.
  assert (Q : match getDocument P pdfData with
     | Returned pdf =>
         match imagesLoop P pdf 1 [] with
         | Returned _ =>
             Permutation (filter isEmbedded (extractImagesOf P pdfData))
                         (embeddedOf P pdf 1)
         | Thrown _ => extractImagesOf P pdfData = []
         end
     | Thrown _ => extractImagesOf P pdfData = []
     end).
  { unfold extractImagesOf. destruct (getDocument P pdfData) as [pdf|]; [|reflexivity].
    destruct (imagesLoop P pdf 1 []) as [images|] eqn:L; [|reflexivity].
    apply imagesLoop_embedded in L. simpl in L. rewrite <- L.
    apply Permutation_filter, Permutation_sym, Hsort. }
  split; [|split; [exact Q|]].
  - intros e He Te.
    assert (F : In e (filter isEmbedded (extractImagesOf P pdfData))).
    { apply filter_In. split; [exact He|]. unfold isEmbedded. now rewrite Te. }
    destruct (getDocument P pdfData) as [pdf|]; [|now rewrite Q in He].
    destruct (imagesLoop P pdf 1 []); [|now rewrite Q in He].
    apply (Permutation_in _ Q) in F.
    pose proof (embeddedOf_entries P pdf 1) as G. rewrite Forall_forall in G.
    destruct (G e F) as (_ & W & H). tauto.
  - intros pg i op img. apply contribution_filtered.
Qed.

(** ** Effects *)

Lemma count_app p tr tr' : count p (tr ++ tr') = (count p tr + count p tr')%nat.
Proof. unfold count. now rewrite filter_app, length_app. Qed.

Lemma added_app {A} (m : M A) tr evs : fst (m tr) = tr ++ evs -> added m tr = evs.
Proof.
  intros E. unfold added. rewrite E, skipn_app, skipn_all, Nat.sub_diag. reflexivity.
Qed.

(** A pass of [performOCR] ends with [passOutcome] and adds [passEvents]. *)
Lemma performOCR_run P imageBase64 tr :
  performOCR P imageBase64 tr
  = (tr ++ passEvents P (count isCreateWorker tr) imageBase64,
     passOutcome P (count isCreateWorker tr) imageBase64).
Proof.
  unfold performOCR, passEvents, passOutcome, tryOutcome, reachesRecognize,
    newWorker, bind, tryFinally, await, emit, ret, dataUrlOf.
  destruct (createWorker P (count isCreateWorker tr)) as [w|e];
    [|now rewrite app_nil_r].
  destruct (loadLanguage w (lit "eng")) as [[]|e1];
    [destruct (initialize w (lit "eng")) as [[]|e2];
     [destruct (recognize w _) as [t|e3]|]|];
    destruct (terminate w) as [[]|e4]; simpl;
    rewrite <- ?app_assoc; reflexivity.
Qed.

Lemma passOutcome_creates P k d t :
  passOutcome P k d = Returned t ->
  count isCreateWorker (passEvents P k d) = 1%nat.
Proof.
  unfold passOutcome, passEvents. destruct (createWorker P k) as [w|]; [|discriminate].
  intros _. unfold count. simpl. rewrite filter_app. simpl.
  destruct (reachesRecognize w); reflexivity.
Qed.

Lemma ocrLoop_run P datas ocrResults tr :
  ocrLoop P datas ocrResults tr
  = (tr ++ batchEvents P (count isCreateWorker tr) datas,
     batchOutcome P (count isCreateWorker tr) datas ocrResults).
Proof.
  revert ocrResults tr. induction datas as [|d rest IH]; intros ocrResults tr; simpl.
  - unfold ret. now rewrite app_nil_r.
  - unfold bind. rewrite performOCR_run.
    destruct (passOutcome P (count isCreateWorker tr) d) as [t|e] eqn:O;
      [|now rewrite app_nil_r].
    rewrite IH, count_app, (passOutcome_creates _ _ _ _ O), Nat.add_1_r, <- app_assoc.
    unfold keepText. destruct (trim t); reflexivity.
Qed.

Lemma extractText_run P pdfData tr :
  extractText P pdfData tr = (tr ++ [EvExtractText], textOutcome P pdfData).
Proof.
  unfold extractText, textOutcome, bind, emit, await, ret.
  destruct (getDocument P pdfData) as [pdf|]; [|reflexivity].
  destruct (textLoop pdf []); reflexivity.
Qed.

Lemma extractImages_run P pdfData tr :
  extractImages P pdfData tr = (tr ++ [EvExtractImages], Returned (extractImagesOf P pdfData)).
Proof. reflexivity. Qed.

(** ** The handler, format by format *)

(** ** The handler, format by format *)

Ltac enter_handler b :=
  unfold run, handler, post; cbn [method upload file body];
  rewrite eqb_refl; cbn [negb];
  unfold tryCatch, bind at 1, await; cbn [file body];
  fold (formatOf b) (wantsImages b) (wantsMetadata b).

Ltac decide_formats :=
  repeat match goal with
         | |- context [eqb (lit ?s) (lit ?t)] =>
             let v := eval vm_compute in (eqb (lit s) (lit t)) in
             change (eqb (lit s) (lit t)) with v
         end;
  cbn [orb andb negb].

Ltac run_stages :=
  unfold bind, ret, assemble, okResponse, errorResponse, invalidFormat, rasterEvents;
  rewrite ?extractImages_run, ?extractText_run, ?ocrLoop_run;
  cbn [app orb andb negb fst snd text images metadata].

(** A format the [switch] has no case for: the answer is the validation
    failure, after the rasterization when [includeImages] is set. *)
Lemma handler_invalid P f b :
  knownFormat (formatOf b) = false ->
  run (handler P (post f b))
  = (if wantsImages b then [EvExtractImages] else [], Returned invalidFormat).
Proof.
  intros K. unfold knownFormat in K.
  repeat (apply orb_false_iff in K; destruct K as [K ?]).
  enter_handler b. rewrite K, H, H0, H1. cbn [orb].
  destruct (wantsImages b); reflexivity.
Qed.

Lemma handler_text P f b :
  formatOf b = lit "text" ->
  run (handler P (post f b))
  = (rasterEvents b ++ [EvExtractText],
     match textOutcome P (buffer f) with
     | Returned t => Returned (okResponse P f b (Some t) (lit "text"))
     | Thrown e => Returned (errorResponse e)
     end).
Proof.
  intros F. enter_handler b. unfold okResponse, rasterEvents. rewrite F. decide_formats.
  destruct (wantsImages b), (wantsMetadata b); run_stages;
    destruct (textOutcome P (buffer f)); reflexivity.
Qed.

Lemma handler_markdown P f b :
  formatOf b = lit "markdown" ->
  run (handler P (post f b))
  = (rasterEvents b ++ [EvExtractText],
     match textOutcome P (buffer f) with
     | Returned t =>
         Returned (okResponse P f b
                     (Some (lit "# " ++ originalname f ++ [newline; newline] ++ t))
                     (lit "markdown"))
     | Thrown e => Returned (errorResponse e)
     end).
Proof.
  intros F. enter_handler b. unfold okResponse, rasterEvents. rewrite F. decide_formats.
  destruct (wantsImages b), (wantsMetadata b); run_stages;
    destruct (textOutcome P (buffer f)); reflexivity.
Qed.

Lemma handler_images P f b :
  formatOf b = lit "images" ->
  run (handler P (post f b))
  = ([EvExtractImages], Returned (okResponse P f b None (lit "pdf.js-enhanced"))).
Proof.
  intros F. enter_handler b. unfold okResponse. rewrite F. decide_formats.
  destruct (wantsImages b), (wantsMetadata b); run_stages; reflexivity.
Qed.

Lemma handler_ocr P f b :
  formatOf b = lit "ocr" ->
  run (handler P (post f b))
  = ([EvExtractImages] ++ batchEvents P 0 (map data (extractImagesOf P (buffer f))),
     match batchOutcome P 0 (map data (extractImagesOf P (buffer f))) [] with
     | Returned ocrResults =>
         Returned (okResponse P f b (Some (join [newline; newline] ocrResults))
                     (lit "pdf.js-enhanced+tesseract.js"))
     | Thrown e => Returned (errorResponse e)
     end).
Proof.
  intros F. enter_handler b. unfold okResponse. rewrite F. decide_formats.
  destruct (wantsImages b), (wantsMetadata b); run_stages;
    change (count isCreateWorker [EvExtractImages]) with 0%nat;
    destruct (batchOutcome P 0 _ []); reflexivity.
Qed.

(** Only a POST request that carries a file is answered with status 200. *)
Lemma success_is_post P req j :
  snd (run (handler P req)) = Returned {| status := 200; json := j |} ->
  exists f b, req = post f b.
Proof.
  destruct req as [m [[[f|] b]|e]]; unfold run, handler, post; cbn [method upload];
    destruct (eqb m (lit "POST")) eqn:E; cbn [negb]; try discriminate.
  - apply eqb_eq in E. subst. intros _. now exists f, b.
Qed.

(** A request that is not a POST, whose upload fails, or that carries no
    file is answered before any stage runs. *)
Lemma handler_rejected P req :
  (forall f b, req <> post f b) ->
  fst (run (handler P req)) = []
  /\ exists resp, snd (run (handler P req)) = Returned resp
                  /\ (status resp = 405 \/ status resp = 500 \/ status resp = 400)%Z.
Proof.
  intros H. destruct req as [m [[[f|] b]|e]]; unfold run, handler; cbn [method upload];
    destruct (eqb m (lit "POST")) eqn:E; cbn [negb];
    try (split; [reflexivity | eexists; split; [reflexivity | cbn; tauto]]).
  apply eqb_eq in E. subst. exfalso. exact (H f b eq_refl).
Qed.

(** ** C1 and C10: the format of a request *)

(** C1, as stated, fails on the code: with the format [pdf] and
    [includeImages] set, the handler answers with the validation failure
    only after [extractImages] has run. *)
Lemma C1_fail_fast_counterexample :
  knownFormat (formatOf (Demo.fields "pdf" false true)) = false
  /\ run (handler (Demo.platform (Returned (lit "Hi"))) (Demo.request "pdf" false true))
     = ([EvExtractImages], Returned invalidFormat)
  /\ count isExtractImages
       (fst (run (handler (Demo.platform (Returned (lit "Hi")))
                    (Demo.request "pdf" false true)))) = 1%nat.
Proof. repeat split; vm_compute; reflexivity. Qed.

(** C1, amended: for every request (a POST that carries a file) whose
    format is given and is not one of text, markdown, images, ocr, the
    handler answers with the validation failure (status 400), and no text
    extraction and no recognition runs, whatever the two flags are; the
    Raster Extractor does not run when [includeImages] is not set, and runs
    once, before the format is looked at, when it is. *)
Theorem C1_invalid_format (P : Platform) (f : File) (b : Body) :
  knownFormat (formatOf b) = false ->
  snd (run (handler P (post f b))) = Returned invalidFormat
  /\ count isExtractText (fst (run (handler P (post f b)))) = 0%nat
  /\ count isEngine (fst (run (handler P (post f b)))) = 0%nat
  /\ count isExtractImages (fst (run (handler P (post f b))))
     = (if wantsImages b then 1 else 0)%nat.
Proof.
  intros K. rewrite (handler_invalid P f b K).
  destruct (wantsImages b); repeat split; reflexivity.
Qed.

Lemma C1_invalid_format_witness :
  snd (run (handler (Demo.platform (Returned (lit "Hi"))) (Demo.request "pdf" true false)))
  = Returned invalidFormat
  /\ count isExtractText
       (fst (run (handler (Demo.platform (Returned (lit "Hi")))
                    (Demo.request "pdf" true false)))) = 0%nat
  /\ count isEngine
       (fst (run (handler (Demo.platform (Returned (lit "Hi")))
                    (Demo.request "pdf" true false)))) = 0%nat
  /\ count isExtractImages
       (fst (run (handler (Demo.platform (Returned (lit "Hi")))
                    (Demo.request "pdf" true false)))) = 0%nat.
Proof.
  apply (C1_invalid_format (Demo.platform (Returned (lit "Hi"))) Demo.docPdf
           (Demo.fields "pdf" true false)).
  reflexivity.
Defined.

(** C10: a request whose format is absent, or empty, is served exactly as
    the same request with the format [text]: the answer is the one of the
    text extraction, not the validation failure. *)
Theorem C10_default_format (P : Platform) (f : File) (b : Body) :
  body_format b = None \/ body_format b = Some [] ->
  (forall tr,
      handler P (post f b) tr
      = handler P (post f {| body_format := Some (lit "text");
                             body_includeMetadata := body_includeMetadata b;
                             body_includeImages := body_includeImages b |}) tr)
  /\ run (handler P (post f b))
     = (rasterEvents b ++ [EvExtractText],
        match textOutcome P (buffer f) with
        | Returned t => Returned (okResponse P f b (Some t) (lit "text"))
        | Thrown e => Returned (errorResponse e)
        end)
  /\ snd (run (handler P (post f b))) <> Returned invalidFormat.
Proof.
  intros H.
  assert (F : formatOf b = lit "text").
  { unfold formatOf. destruct H as [-> | ->]; reflexivity. }
  split; [|split].
  - intros tr. destruct b as [fmt md im]. simpl in H.
    destruct H as [-> | ->]; reflexivity.
  - now apply handler_text.
  - rewrite (handler_text P f b F). simpl.
    destruct (textOutcome P (buffer f)); discriminate.
Qed.

Lemma C10_default_format_witness :
  run (handler (Demo.platform (Returned (lit "Hi")))
         (post Demo.docPdf {| body_format := None;
                              body_includeMetadata := None;
                              body_includeImages := None |}))
  = ([EvExtractText],
     Returned {| status := 200;
                 json := JResult {| text := Some (lit "Hello world.");
                                    images := None; metadata := None |} |}).
Proof.
  rewrite (proj1 (proj2
    (C10_default_format (Demo.platform (Returned (lit "Hi"))) Demo.docPdf
       {| body_format := None; body_includeMetadata := None;
          body_includeImages := None |} (or_introl eq_refl)))).
  reflexivity.
Defined.

(** ** C8: metadata *)

(** C8: a request answered with status 200 and [includeMetadata] set
    carries a metadata object with the size and the name of the uploaded
    file, the timestamp [new Date().toISOString()] gives, and
    [processedWith] naming the stages run: [text], [markdown], the
    extraction method for images, both methods for ocr. *)
Theorem C8_metadata (P : Platform) (f : File) (b : Body) (r : Result) :
  wantsMetadata b = true ->
  snd (run (handler P (post f b))) = Returned {| status := 200; json := JResult r |} ->
  exists m,
    metadata r = Some m
    /\ fileSize m = size f
    /\ filename m = originalname f
    /\ timestamp m = toISOString P
    /\ ((formatOf b = lit "text" /\ processedWith m = lit "text")
        \/ (formatOf b = lit "markdown" /\ processedWith m = lit "markdown")
        \/ (formatOf b = lit "images" /\ processedWith m = lit "pdf.js-enhanced")
        \/ (formatOf b = lit "ocr"
            /\ processedWith m = lit "pdf.js-enhanced+tesseract.js")).
Proof.
  intros M R.
  destruct (knownFormat (formatOf b)) eqn:K.
  - unfold knownFormat in K. repeat (apply orb_true_iff in K; destruct K as [K|K]);
      apply eqb_eq in K.
    + rewrite (handler_text P f b K) in R. cbn [snd] in R.
      destruct (textOutcome P (buffer f)); [|discriminate].
      unfold okResponse in R. rewrite M in R. injection R as <-.
      eexists. split; [reflexivity|]. cbn. auto 6.
    + rewrite (handler_markdown P f b K) in R. cbn [snd] in R.
      destruct (textOutcome P (buffer f)); [|discriminate].
      unfold okResponse in R. rewrite M in R. injection R as <-.
      eexists. split; [reflexivity|]. cbn. auto 8.
    + rewrite (handler_images P f b K) in R. cbn [snd] in R.
      unfold okResponse in R. rewrite M in R. injection R as <-.
      eexists. split; [reflexivity|]. cbn. auto 10.
    + rewrite (handler_ocr P f b K) in R. cbn [snd] in R.
      destruct (batchOutcome P 0 _ []); [|discriminate].
      unfold okResponse in R. rewrite M in R. injection R as <-.
      eexists. split; [reflexivity|]. cbn. auto 10.
  - rewrite (handler_invalid P f b K) in R. discriminate.
Qed.

Lemma C8_metadata_witness :
  exists m,
    metadata Demo.ocrResult = Some m
    /\ fileSize m = size Demo.docPdf
    /\ filename m = originalname Demo.docPdf
    /\ timestamp m = toISOString (Demo.platform (Returned (lit "Hi")))
    /\ ((formatOf (Demo.fields "ocr" true true) = lit "text"
         /\ processedWith m = lit "text")
        \/ (formatOf (Demo.fields "ocr" true true) = lit "markdown"
            /\ processedWith m = lit "markdown")
        \/ (formatOf (Demo.fields "ocr" true true) = lit "images"
            /\ processedWith m = lit "pdf.js-enhanced")
        \/ (formatOf (Demo.fields "ocr" true true) = lit "ocr"
            /\ processedWith m = lit "pdf.js-enhanced+tesseract.js")).
Proof.
  apply (C8_metadata (Demo.platform (Returned (lit "Hi"))) Demo.docPdf
           (Demo.fields "ocr" true true) Demo.ocrResult); reflexivity.
Defined.

(** ** The recognition batch *)

Lemma passEvents_engine P k d : forallb isEngine (passEvents P k d) = true.
Proof.
  unfold passEvents. destruct (createWorker P k) as [w|]; [|reflexivity].
  destruct (reachesRecognize w); reflexivity.
Qed.

Lemma batchEvents_engine P k datas : forallb isEngine (batchEvents P k datas) = true.
Proof.
  revert k. induction datas as [|d rest IH]; intros k; simpl; [reflexivity|].
  rewrite forallb_app, passEvents_engine.
  destruct (passOutcome P k d); [apply IH | reflexivity].
Qed.

Lemma count_engine_only p evs :
  (forall e, isEngine e = true -> p e = false) ->
  forallb isEngine evs = true -> count p evs = 0%nat.
Proof.
  intros Hp. unfold count. induction evs as [|e evs IH]; simpl; [reflexivity|].
  intros H. apply andb_true_iff in H. destruct H as [He Hevs].
  rewrite (Hp e He). auto.
Qed.

Lemma recognized_app tr tr' : recognized (tr ++ tr') = recognized tr ++ recognized tr'.
Proof. apply flat_map_app. Qed.

Lemma dataUrlOf_data d :
  skipn (List.length (lit "data:image/png;base64,")) (dataUrlOf d) = d.
Proof. reflexivity. Qed.

Lemma passOutcome_recognized P k d t :
  passOutcome P k d = Returned t -> recognized (passEvents P k d) = [d].
Proof.
  unfold passOutcome, passEvents, tryOutcome, reachesRecognize.
  destruct (createWorker P k) as [w|]; [|discriminate].
  destruct (terminate w); [|discriminate].
  destruct (loadLanguage w (lit "eng")); [|discriminate].
  destruct (initialize w (lit "eng")); [|discriminate].
  intros _. reflexivity.
Qed.

(** A pass hands its image to recognition, or stops before. *)
Lemma passEvents_recognized P k d :
  recognized (passEvents P k d) = [d] \/ recognized (passEvents P k d) = [].
Proof.
  unfold passEvents. destruct (createWorker P k) as [w|]; [|now right].
  destruct (reachesRecognize w); [now left | now right].
Qed.

Lemma batch_recognized_all P k datas acc res :
  batchOutcome P k datas acc = Returned res ->
  recognized (batchEvents P k datas) = datas.
Proof.
  revert k acc. induction datas as [|d rest IH]; intros k acc; simpl; [reflexivity|].
  destruct (passOutcome P k d) as [t|] eqn:O; [|discriminate].
  intros R. rewrite recognized_app, (passOutcome_recognized _ _ _ _ O).
  simpl. f_equal. exact (IH _ _ R).
Qed.

Lemma batch_recognized_prefix P k datas :
  exists rest, datas = recognized (batchEvents P k datas) ++ rest.
Proof.
  revert k. induction datas as [|d rest IH]; intros k; simpl.
  - now exists [].
  - rewrite recognized_app. destruct (passOutcome P k d) as [t|] eqn:O.
    + rewrite (passOutcome_recognized _ _ _ _ O).
      destruct (IH (S k)) as [rest' E]. exists rest'. simpl. now f_equal.
    + simpl. rewrite app_nil_r.
      destruct (passEvents_recognized P k d) as [-> | ->].
      * now exists rest.
      * now exists (d :: rest).
Qed.

(** When every pass returns, the batch keeps the texts that are not blank,
    in the order of the images. *)
Lemma batchOutcome_all P (t : nat -> jsstring) datas k acc :
  (forall j d, nth_error datas j = Some d ->
               passOutcome P (k + j) d = Returned (t (k + j)%nat)) ->
  batchOutcome P k datas acc
  = Returned (acc ++ filter keepText (map t (seq k (List.length datas)))).
Proof.
  revert k acc. induction datas as [|d rest IH]; intros k acc H; simpl.
  - now rewrite app_nil_r.
  - pose proof (H 0%nat d eq_refl) as H0. rewrite Nat.add_0_r in H0. rewrite H0.
    rewrite IH.
    + destruct (keepText (t k)); [now rewrite <- app_assoc | reflexivity].
    + intros j d' E. replace (S k + j)%nat with (k + S j)%nat by lia.
      now apply H.
Qed.

(** The first pass that throws ends the batch with its exception, and no
    later pass starts. *)
Lemma batchOutcome_fail P datas k acc j d e :
  nth_error datas j = Some d ->
  passOutcome P (k + j) d = Thrown e ->
  (forall i d', (i < j)%nat -> nth_error datas i = Some d' ->
                exists t, passOutcome P (k + i) d' = Returned t) ->
  batchOutcome P k datas acc = Thrown e
  /\ (count isCreateWorker (batchEvents P k datas) <= S j)%nat.
Proof.
  revert k acc j. induction datas as [|d0 rest IH]; intros k acc j Hj He Hbefore.
  - destruct j; discriminate.
  - simpl. destruct j as [|j].
    + simpl in Hj. injection Hj as ->. rewrite Nat.add_0_r in He. rewrite He.
      split; [reflexivity|]. rewrite app_nil_r.
      unfold passEvents. destruct (createWorker P k) as [w|]; [|unfold count; simpl; lia].
      unfold count. simpl. rewrite filter_app. destruct (reachesRecognize w); simpl; lia.
    + destruct (Hbefore 0%nat d0 ltac:(lia) eq_refl) as [t0 E0].
      rewrite Nat.add_0_r in E0. rewrite E0.
      destruct (IH (S k) (if keepText t0 then acc ++ [t0] else acc) j Hj) as [R C].
      * replace (S k + j)%nat with (k + S j)%nat by lia. exact He.
      * intros i d' Hi Hd'. replace (S k + i)%nat with (k + S i)%nat by lia.
        apply Hbefore; [lia | exact Hd'].
      * split; [exact R|]. rewrite count_app, (passOutcome_creates _ _ _ _ E0). lia.
Qed.

Lemma filter_none {A} (p : A -> bool) l :
  (forall x, In x l -> p x = false) -> filter p l = [].
Proof.
  induction l as [|x l IH]; intros H; simpl; [reflexivity|].
  rewrite (H x (or_introl eq_refl)). apply IH. intros y Hy. apply H. now right.
Qed.

(** A trace in which [k] workers were created. *)
Lemma count_workers k : count isCreateWorker (repeat (EvCreateWorker 0) k) = k.
Proof.
  unfold count. induction k as [|k IH]; simpl; [reflexivity | now rewrite IH].
Qed.

Lemma passOutcome_performOCR P k d :
  snd (performOCR P d (repeat (EvCreateWorker 0) k)) = passOutcome P k d.
Proof. rewrite performOCR_run, count_workers. reflexivity. Qed.

(** ** C2, C5 and C9: recognition *)

(** C2, as stated, fails on the code: when recognition throws, the pass is
    not recovered.  With two images and a worker whose [recognize] throws,
    the request is answered with status 500 and an error instead of a
    result, after the first pass: the second image is never looked at. *)
Lemma C2_recognition_failure_counterexample :
  List.length (extractImagesOf (Demo.platform (Thrown (lit "Recognition failed")))
                 (buffer Demo.docPdf)) = 2%nat
  /\ (exists msg,
        snd (run (handler (Demo.platform (Thrown (lit "Recognition failed")))
                    (Demo.request "ocr" false false)))
        = Returned {| status := 500; json := JError msg |})
  /\ count isCreateWorker
       (fst (run (handler (Demo.platform (Thrown (lit "Recognition failed")))
                    (Demo.request "ocr" false false)))) = 1%nat.
Proof.
  split; [vm_compute; reflexivity|]. split; [|vm_compute; reflexivity].
  eexists. vm_compute. reflexivity.
Qed.

(** C2, amended: for the format ocr, an image whose recognized text is
    blank contributes nothing and recognition goes on with the remaining
    images: when every pass returns, the request succeeds with the texts
    that are not blank, joined by a blank line in image order, and with the
    empty text when every text is blank.  A pass that throws is not
    recovered: the batch stops at that image, no later pass starts, and the
    request is answered with status 500 and an error instead of a result.
    Pass number [k] is [performOCR] run after [k] workers were created. *)
Theorem C2_ocr_batch (P : Platform) (f : File) (b : Body) :
  formatOf b = lit "ocr" ->
  (forall t : nat -> jsstring,
      (forall k d tr,
          nth_error (map data (extractImagesOf P (buffer f))) k = Some d ->
          count isCreateWorker tr = k ->
          snd (performOCR P d tr) = Returned (t k)) ->
      snd (run (handler P (post f b)))
      = Returned (okResponse P f b
                    (Some (join [newline; newline]
                             (filter keepText
                                (map t (seq 0 (List.length (extractImagesOf P (buffer f))))))))
                    (lit "pdf.js-enhanced+tesseract.js"))
      /\ ((forall k, (k < List.length (extractImagesOf P (buffer f)))%nat ->
                     trim (t k) = []) ->
          snd (run (handler P (post f b)))
          = Returned (okResponse P f b (Some []) (lit "pdf.js-enhanced+tesseract.js"))))
  /\ (forall k d e,
        nth_error (map data (extractImagesOf P (buffer f))) k = Some d ->
        (forall tr, count isCreateWorker tr = k ->
                    snd (performOCR P d tr) = Thrown e) ->
        (forall i d' tr, (i < k)%nat ->
           nth_error (map data (extractImagesOf P (buffer f))) i = Some d' ->
           count isCreateWorker tr = i ->
           exists t, snd (performOCR P d' tr) = Returned t) ->
        (exists msg,
            snd (run (handler P (post f b)))
            = Returned {| status := 500; json := JError msg |})
        /\ (count isCreateWorker (fst (run (handler P (post f b)))) <= S k)%nat).
Proof.
  intros F. rewrite (handler_ocr P f b F). cbn [fst snd]. split.
  - intros t H.
    rewrite (batchOutcome_all P t _ 0 []).
    + rewrite length_map. cbn [app]. split; [reflexivity|].
      intros B. rewrite filter_none; [reflexivity|].
      intros x Hx. apply in_map_iff in Hx. destruct Hx as (k & <- & Hk).
      apply in_seq in Hk. unfold keepText. rewrite B by lia. reflexivity.
    + intros j d Hd. cbn [Nat.add]. rewrite <- (passOutcome_performOCR P j d).
      apply (H j d _ Hd), count_workers.
  - intros k d e Hk He Hbefore.
    destruct (batchOutcome_fail P _ 0 [] k d e Hk) as [R C].
    + cbn [Nat.add]. rewrite <- (passOutcome_performOCR P k d).
      apply He, count_workers.
    + intros i d' Hi Hd'. cbn [Nat.add]. rewrite <- (passOutcome_performOCR P i d').
      apply (Hbefore i d' _ Hi Hd'), count_workers.
    + rewrite R. split; [eexists; reflexivity|].
      rewrite count_app. unfold count at 1. simpl. exact C.
Qed.

Lemma C2_ocr_batch_witness :
  snd (run (handler (Demo.platform (Returned (lit "  "))) (Demo.request "ocr" false false)))
  = Returned (okResponse (Demo.platform (Returned (lit "  "))) Demo.docPdf
                (Demo.fields "ocr" false false) (Some [])
                (lit "pdf.js-enhanced+tesseract.js")).
Proof.
  refine (proj2 (proj1 (C2_ocr_batch (Demo.platform (Returned (lit "  "))) Demo.docPdf
                          (Demo.fields "ocr" false false) eq_refl)
                   (fun _ => lit "  ") _) _).
  - intros k d tr _ _. reflexivity.
  - intros k _. reflexivity.
Defined.

(** C5: for the format ocr with [includeImages] set, [extractImages] runs
    exactly once in the request; what is handed to recognition is, image by
    image and in order, a prefix of the sequence it returned; and when the
    request succeeds the [images] of the result are that sequence and every
    image of it was handed to recognition, in the same order. *)
Theorem C5_single_rasterization (P : Platform) (f : File) (b : Body) :
  formatOf b = lit "ocr" ->
  wantsImages b = true ->
  count isExtractImages (fst (run (handler P (post f b)))) = 1%nat
  /\ (exists rest,
        map data (extractImagesOf P (buffer f))
        = recognized (fst (run (handler P (post f b)))) ++ rest)
  /\ (forall r,
        snd (run (handler P (post f b)))
        = Returned {| status := 200; json := JResult r |} ->
        images r = Some (extractImagesOf P (buffer f))
        /\ recognized (fst (run (handler P (post f b))))
           = map data (extractImagesOf P (buffer f))).
Proof.
  intros F I. rewrite (handler_ocr P f b F). cbn [fst snd]. repeat split.
  - rewrite count_app.
    rewrite (count_engine_only isExtractImages (batchEvents P 0 _)).
    + reflexivity.
    + intros [] E; try reflexivity; discriminate.
    + apply batchEvents_engine.
  - rewrite recognized_app. cbn [recognized flat_map app].
    apply batch_recognized_prefix.
  - destruct (batchOutcome P 0 _ []); [|discriminate H].
    unfold okResponse in H. rewrite I in H. injection H as <-. reflexivity.
  - destruct (batchOutcome P 0 _ []) eqn:O; [|discriminate H].
    rewrite recognized_app. cbn [recognized flat_map app].
    exact (batch_recognized_all _ _ _ _ _ O).
Qed.

Lemma C5_single_rasterization_witness :
  count isExtractImages
    (fst (run (handler (Demo.platform (Returned (lit "Hi")))
                 (Demo.request "ocr" true true)))) = 1%nat
  /\ images Demo.ocrResult
     = Some (extractImagesOf (Demo.platform (Returned (lit "Hi"))) (buffer Demo.docPdf))
  /\ recognized (fst (run (handler (Demo.platform (Returned (lit "Hi")))
                             (Demo.request "ocr" true true))))
     = map data (extractImagesOf (Demo.platform (Returned (lit "Hi")))
                   (buffer Demo.docPdf)).
Proof.
  destruct (C5_single_rasterization (Demo.platform (Returned (lit "Hi"))) Demo.docPdf
              (Demo.fields "ocr" true true) eq_refl eq_refl) as (C & _ & S).
  split; [exact C|]. apply (S Demo.ocrResult). reflexivity.
Defined.

(** C9: in every pass the worker that [createWorker] returned is
    terminated, and that is the last thing the pass does, whether language
    loading, initialization or recognition return or throw; when
    [createWorker] itself throws there is no worker and the pass adds
    nothing to the trace. *)
Theorem C9_engine_released (P : Platform) (imageBase64 : jsstring) (tr : list event) :
  match createWorker P (count isCreateWorker tr) with
  | Thrown e => performOCR P imageBase64 tr = (tr, Thrown e)
  | Returned w =>
      (exists mid,
          fst (performOCR P imageBase64 tr)
          = tr ++ EvCreateWorker (count isCreateWorker tr) :: mid
               ++ [EvTerminate (count isCreateWorker tr)]
          /\ forallb isRecognize mid = true)
      /\ forall id,
           count (isTerminateOf id) (added (performOCR P imageBase64) tr)
           = count (isCreateOf id) (added (performOCR P imageBase64) tr)
  end.
Proof.
  pose proof (performOCR_run P imageBase64 tr) as R.
  unfold passEvents, passOutcome in R.
  destruct (createWorker P (count isCreateWorker tr)) as [w|e].
  - split.
    + rewrite R. cbn [fst]. eexists. split; [reflexivity|].
      destruct (reachesRecognize w); reflexivity.
    + intros id. rewrite (added_app _ _ _ (f_equal fst R)).
      unfold count. cbn [filter isTerminateOf isCreateOf].
      rewrite !filter_app. cbn [filter isTerminateOf isCreateOf].
      destruct (reachesRecognize w); cbn [filter isTerminateOf isCreateOf app];
        destruct (Nat.eqb _ id); reflexivity.
  - rewrite R. now rewrite app_nil_r.
Qed.

Lemma passEvents_balanced P k d id :
  count (isTerminateOf id) (passEvents P k d) = count (isCreateOf id) (passEvents P k d).
Proof.
  unfold passEvents, count. destruct (createWorker P k) as [w|]; [|reflexivity].
  cbn [filter isTerminateOf isCreateOf]. rewrite !filter_app.
  destruct (reachesRecognize w); cbn [filter isTerminateOf isCreateOf app];
    destruct (Nat.eqb k id); reflexivity.
Qed.

(** Over a whole batch, every worker that was created was terminated. *)
Lemma batchEvents_balanced P k datas id :
  count (isTerminateOf id) (batchEvents P k datas)
  = count (isCreateOf id) (batchEvents P k datas).
Proof.
  revert k. induction datas as [|d rest IH]; intros k; simpl; [reflexivity|].
  rewrite !count_app, passEvents_balanced.
  destruct (passOutcome P k d); [now rewrite IH | reflexivity].
Qed.

Lemma handler_ocr_balanced P f b id :
  formatOf b = lit "ocr" ->
  count (isTerminateOf id) (fst (run (handler P (post f b))))
  = count (isCreateOf id) (fst (run (handler P (post f b)))).
Proof.
  intros F. rewrite (handler_ocr P f b F). cbn [fst].
  rewrite !count_app, batchEvents_balanced. reflexivity.
Qed.

(** ** The scenarios of the specification, run on the model *)

Example scenario_A_empty_document :
  run (handler Demo.emptyPlatform (Demo.request "text" false false))
  = ([EvExtractText],
     Returned {| status := 200;
                 json := JResult {| text := Some []; images := None;
                                    metadata := None |} |}).
Proof. vm_compute. reflexivity. Qed.

Example scenario_B_markdown :
  snd (run (handler (Demo.platform (Returned (lit "Hi"))) (Demo.request "markdown" false false)))
  = Returned {| status := 200;
                json := JResult
                  {| text := Some (lit "# doc.pdf" ++ [newline; newline] ++ lit "Hello world.");
                     images := None; metadata := None |} |}.
Proof. vm_compute. reflexivity. Qed.

Example scenario_C_images :
  snd (run (handler (Demo.platform (Returned (lit "Hi"))) (Demo.request "images" false false)))
  = Returned {| status := 200;
                json := JResult
                  {| text := None;
                     images := Some [Demo.pageEntry; Demo.embeddedEntry];
                     metadata := None |} |}.
Proof. vm_compute. reflexivity. Qed.

Example scenario_D_blank_recognition :
  snd (run (handler (Demo.platform (Returned (lit "  "))) (Demo.request "ocr" false false)))
  = Returned {| status := 200;
                json := JResult {| text := Some []; images := None;
                                   metadata := None |} |}.
Proof. vm_compute. reflexivity. Qed.

Example scenario_E_text_with_flags :
  run (handler (Demo.platform (Returned (lit "Hi"))) (Demo.request "text" true true))
  = ([EvExtractImages; EvExtractText],
     Returned {| status := 200;
                 json := JResult
                   {| text := Some (lit "Hello world.");
                      images := Some [Demo.pageEntry; Demo.embeddedEntry];
                      metadata :=
                        Some {| fileSize := 4; filename := lit "doc.pdf";
                                timestamp := lit "2024-05-01T12:00:00.000Z";
                                processedWith := lit "text";
                                extractionMethod := lit "pdf.js-enhanced" |} |} |}).
Proof. vm_compute. reflexivity. Qed.

(** ** C6 and C7 on a document *)

Lemma C6_ordering_witness :
  (pageNumber Demo.pageEntry <= pageNumber Demo.embeddedEntry)%Z
  /\ (pageNumber Demo.pageEntry = pageNumber Demo.embeddedEntry ->
      type Demo.embeddedEntry = page -> type Demo.pageEntry = page).
Proof.
  apply (C6_ordering (Demo.platform (Returned (lit "Hi"))) (buffer Demo.docPdf)
           insertionSort_orders 0 1 Demo.pageEntry Demo.embeddedEntry).
  - lia.
  - vm_compute. reflexivity.
  - vm_compute. reflexivity.
Defined.

Lemma C7_threshold_witness :
  (width Demo.embeddedEntry > 50)%Z /\ (height Demo.embeddedEntry > 50)%Z.
Proof.
  apply (proj1 (C7_threshold (Demo.platform (Returned (lit "Hi"))) (buffer Demo.docPdf)
                  insertionSort_permutes) Demo.embeddedEntry).
  - vm_compute. right. left. reflexivity.
  - reflexivity.
Defined.

(** * Beyond the claims *)

(** ** The text of a page and of a document *)

(** X1: the test for sentence punctuation never changes what the reducer
    returns: a word is appended directly when the text so far ends with
    white space, and after one space in every other case, whether the text
    ends with [.], [!] or [?] or not. *)
Theorem X1_punctuation_test_has_no_effect (text word : jsstring) :
  Text.addWord text word
  = if testEnd isWhiteSpace text then text ++ word else text ++ [space] ++ word.
Proof. exact (addWord_space_rule text word). Qed.

Lemma spaceFree_start_white w : spaceFree w = true -> testStart isWhiteSpace w = false.
Proof.
  destruct w as [|c w]; [reflexivity|]. simpl. intros H.
  apply andb_true_iff in H. destruct H as [H _]. now apply negb_true_iff.
Qed.

Lemma cleanWord_edgeClean w : cleanWord w -> edgeClean w.
Proof.
  intros [S N]. repeat split;
    [now apply spaceFree_start_white | now apply spaceFree_end | exact N].
Qed.

Lemma join_not_nil sep parts :
  parts <> [] -> Forall (fun p => p <> []) parts -> join sep parts <> [].
Proof.
  destruct parts as [|p [|q rest]]; intros N F; [congruence| |];
    inversion F; subst; simpl.
  - assumption.
  - intros E. apply app_eq_nil in E. tauto.
Qed.

Lemma join_edgeClean sep parts :
  parts <> [] -> Forall edgeClean parts -> edgeClean (join sep parts).
Proof.
  induction parts as [|p parts IH]; [congruence|]. intros _ F.
  inversion F as [|? ? (Sp & Ep & Np) F']; subst.
  destruct parts as [|q rest]; [simpl; now repeat split|].
  change (join sep (p :: q :: rest)) with (p ++ sep ++ join sep (q :: rest)).
  destruct (IH ltac:(discriminate) F') as (Sj & Ej & Nj).
  repeat split.
  - rewrite testStart_app. destruct p; [congruence | exact Sp].
  - rewrite app_assoc, testEnd_app by exact Nj. exact Ej.
  - intros E. apply app_eq_nil in E. tauto.
Qed.

Lemma fold_addWord_clean words acc :
  testEnd isWhiteSpace acc = false -> Forall cleanWord words ->
  fold_left Text.addWord words acc
  = acc ++ List.concat (map (fun w => space :: w) words).
Proof.
  revert acc. induction words as [|w words IH]; intros acc E F; simpl.
  - now rewrite app_nil_r.
  - inversion F as [|? ? [Sw Nw] F']; subst.
    rewrite addWord_space_rule, E, IH; [|
      | exact F'].
    + now rewrite <- app_assoc.
    + rewrite app_assoc, testEnd_app by exact Nw. now apply spaceFree_end.
Qed.

Lemma concat_space_join words :
  words <> [] ->
  List.concat (map (fun w => space :: w) words) = space :: join [space] words.
Proof.
  induction words as [|w words IH]; [congruence|]. intros _.
  destruct words as [|v rest]; [simpl; now rewrite app_nil_r|].
  change (join [space] (w :: v :: rest)) with (w ++ [space] ++ join [space] (v :: rest)).
  change (List.concat (map (fun w0 => space :: w0) (w :: v :: rest)))
    with ((space :: w) ++ List.concat (map (fun w0 => space :: w0) (v :: rest))).
  rewrite IH by discriminate. reflexivity.
Qed.

Lemma pageText_clean items :
  cleanPage items -> Text.pageText items = space :: join [space] (wordsOf items).
Proof.
  intros [N F]. unfold Text.pageText. fold (wordsOf items).
  rewrite fold_addWord_clean by (reflexivity || exact F).
  simpl. apply concat_space_join. unfold wordsOf. destruct items; [congruence|discriminate].
Qed.

Lemma join_shift (sep : jsstring) (c : N) (parts : list jsstring) :
  parts <> [] ->
  join sep (map (fun p => c :: p) parts) = c :: join (sep ++ [c]) parts.
Proof.
  induction parts as [|p parts IH]; [congruence|]. intros _.
  destruct parts as [|q rest]; [reflexivity|].
  change (join (sep ++ [c]) (p :: q :: rest))
    with (p ++ (sep ++ [c]) ++ join (sep ++ [c]) (q :: rest)).
  change (join sep (map (fun p0 => c :: p0) (p :: q :: rest)))
    with ((c :: p) ++ sep ++ join sep (map (fun p0 => c :: p0) (q :: rest))).
  rewrite IH by discriminate. simpl. now rewrite <- !app_assoc.
Qed.

Lemma cleanPage_line items : cleanPage items -> edgeClean (join [space] (wordsOf items)).
Proof.
  intros [N F]. apply join_edgeClean.
  - unfold wordsOf. destruct items; [congruence|discriminate].
  - eapply Forall_impl; [|exact F]. intros w. apply cleanWord_edgeClean.
Qed.

(** X2: when every page has at least one word and no word is empty or
    contains white space, a page string is its words, each after one space,
    and the text of the document is the words of each page joined by one
    space, with a blank line and one space between two pages. *)
Theorem X2_text_of_clean_pages (pages : list (list TextItem)) :
  Forall cleanPage pages ->
  Forall (fun items => Text.pageText items = space :: join [space] (wordsOf items)) pages
  /\ Text.documentText pages
     = join [newline; newline; space]
         (map (fun items => join [space] (wordsOf items)) pages).
Proof.
  intros H. split.
  - eapply Forall_impl; [|exact H]. intros items. apply pageText_clean.
  - rewrite documentText_join.
    destruct pages as [|p pages]; [reflexivity|].
    assert (E : map Text.pageText (p :: pages)
                = map (fun l => space :: l)
                    (map (fun items => join [space] (wordsOf items)) (p :: pages))).
    { rewrite map_map. apply map_ext_in. intros items Hi.
      rewrite Forall_forall in H. now apply pageText_clean, H. }
    rewrite E, join_shift by discriminate.
    assert (C : edgeClean (join ([newline; newline] ++ [space])
                  (map (fun items => join [space] (wordsOf items)) (p :: pages)))).
    { apply join_edgeClean; [discriminate|].
      apply Forall_map. eapply Forall_impl; [|exact H]. intros items. apply cleanPage_line. }
    destruct C as (S & En & _).
    unfold trim. change (trimStart (space :: ?x)) with (trimStart x).
    simpl trimStart. rewrite trimStart_fix by exact S. now apply trimEnd_fix.
Qed.

Lemma X2_text_of_clean_pages_witness :
  Forall (fun items => Text.pageText items = space :: join [space] (wordsOf items))
    [Cases.twoWords; [item "Bye"]]
  /\ Text.documentText [Cases.twoWords; [item "Bye"]]
     = join [newline; newline; space]
         (map (fun items => join [space] (wordsOf items)) [Cases.twoWords; [item "Bye"]]).
Proof.
  apply (X2_text_of_clean_pages [Cases.twoWords; [item "Bye"]]).
  repeat constructor; discriminate.
Defined.

(** ** Failures of the document and of its pages *)

Lemma textLoop_fails good bad rest e fullText :
  Forall pageGivesText good -> pageFailsText bad e ->
  textLoop (good ++ bad :: rest) fullText = Thrown e.
Proof.
  intros G B. revert fullText.
  induction G as [|pgo good (pg & items & -> & T) _ IH]; intros fullText; simpl.
  - destruct B as [-> | (pg & -> & T)]; [reflexivity | now rewrite T].
  - rewrite T. apply IH.
Qed.

(** X3: text extraction gives nothing of a document one page of which
    fails: when the pages before it give their text and it cannot be loaded
    or its text content cannot be read, [extractText] throws that error,
    whatever the later pages are, and a text or markdown request is answered
    with status 500 and that message instead of the text of the pages
    read. *)
Theorem X3_first_failing_page (P : Platform) (f : File) (b : Body)
    (good rest : PDFDocument) (bad : outcome PDFPage) (e : jsstring) :
  getDocument P (buffer f) = Returned (good ++ bad :: rest) ->
  Forall pageGivesText good ->
  pageFailsText bad e ->
  (forall tr, snd (extractText P (buffer f) tr) = Thrown e)
  /\ (formatOf b = lit "text" \/ formatOf b = lit "markdown" ->
      snd (run (handler P (post f b))) = Returned (errorResponse e)).
Proof.
  intros D G B.
  assert (T : textOutcome P (buffer f) = Thrown e).
  { unfold textOutcome. rewrite D, (textLoop_fails good bad rest e [] G B). reflexivity. }
  split.
  - intros tr. rewrite extractText_run. exact T.
  - intros [F|F].
    + rewrite (handler_text P f b F), T. reflexivity.
    + rewrite (handler_markdown P f b F), T. reflexivity.
Qed.

Lemma X3_first_failing_page_witness :
  (forall tr, snd (extractText Cases.secondPageFails (buffer Demo.docPdf) tr)
              = Thrown (lit "Invalid page request"))
  /\ (formatOf (Demo.fields "text" false false) = lit "text"
      \/ formatOf (Demo.fields "text" false false) = lit "markdown" ->
      snd (run (handler Cases.secondPageFails
                  (post Demo.docPdf (Demo.fields "text" false false))))
      = Returned (errorResponse (lit "Invalid page request"))).
Proof.
  apply (X3_first_failing_page Cases.secondPageFails Demo.docPdf
           (Demo.fields "text" false false)
           [Returned Demo.onePage] [] (Thrown (lit "Invalid page request"))
           (lit "Invalid page request")).
  - reflexivity.
  - constructor; [|constructor].
    exists Demo.onePage, Cases.twoWords. split; reflexivity.
  - left. reflexivity.
Defined.

Lemma imagesLoop_fails P pages i images :
  Exists pageFailsImages pages -> exists e, imagesLoop P pages i images = Thrown e.
Proof.
  intros H. revert i images.
  induction pages as [|pgo pages IH]; intros i images; [inversion H|].
  simpl. destruct pgo as [pg|e]; [|now exists e].
  destruct (getOperatorList pg) as [ops|e] eqn:O; [|now exists e].
  apply IH. inversion H as [? ? [(e & E)|(pg' & e & E & O')]|]; subst;
    [discriminate | | assumption].
  injection E as <-. congruence.
Qed.

(** X4: image extraction is all or nothing for a document: when one page
    cannot be loaded, or its operator list cannot be read, [extractImages]
    returns no image at all, also none of the pages before it, and a request
    for the images is answered with status 200 and an empty array. *)
Theorem X4_images_all_or_nothing (P : Platform) (f : File) (b : Body)
    (pdf : PDFDocument) :
  getDocument P (buffer f) = Returned pdf ->
  Exists pageFailsImages pdf ->
  extractImagesOf P (buffer f) = []
  /\ (formatOf b = lit "images" ->
      exists r, snd (run (handler P (post f b)))
                = Returned {| status := 200; json := JResult r |}
                /\ images r = Some [] /\ text r = None).
Proof.
  intros D H.
  assert (E : extractImagesOf P (buffer f) = []).
  { unfold extractImagesOf. rewrite D.
    destruct (imagesLoop_fails P pdf 1 [] H) as [e ->]. reflexivity. }
  split; [exact E|]. intros F.
  rewrite (handler_images P f b F). unfold okResponse. rewrite E, F. cbn [snd].
  eexists. split; [reflexivity|]. rewrite orb_true_r. split; reflexivity.
Qed.

Lemma X4_images_all_or_nothing_witness :
  extractImagesOf Cases.secondPageFails (buffer Demo.docPdf) = []
  /\ (formatOf (Demo.fields "images" false false) = lit "images" ->
      exists r, snd (run (handler Cases.secondPageFails
                            (post Demo.docPdf (Demo.fields "images" false false))))
                = Returned {| status := 200; json := JResult r |}
                /\ images r = Some [] /\ text r = None).
Proof.
  apply (X4_images_all_or_nothing Cases.secondPageFails Demo.docPdf
           (Demo.fields "images" false false)
           [Returned Demo.onePage; Thrown (lit "Invalid page request")]).
  - reflexivity.
  - apply Exists_cons_tl, Exists_cons_hd. left. now exists (lit "Invalid page request").
Defined.

(** X5: a buffer that cannot be opened as a document is an error for the
    text formats only: a text or markdown request is answered with status
    500 and the message of the parser, a request for the images with status
    200 and an empty array, and an ocr request with status 200 and the empty
    text, without any recognition pass. *)
Theorem X5_unreadable_document (P : Platform) (f : File) (b : Body) (e : jsstring) :
  getDocument P (buffer f) = Thrown e ->
  (formatOf b = lit "text" \/ formatOf b = lit "markdown" ->
   snd (run (handler P (post f b))) = Returned (errorResponse e))
  /\ (formatOf b = lit "images" ->
      exists r, snd (run (handler P (post f b)))
                = Returned {| status := 200; json := JResult r |}
                /\ images r = Some [] /\ text r = None)
  /\ (formatOf b = lit "ocr" ->
      count isEngine (fst (run (handler P (post f b)))) = 0%nat
      /\ exists r, snd (run (handler P (post f b)))
                   = Returned {| status := 200; json := JResult r |}
                   /\ text r = Some []).
Proof.
  intros D.
  assert (E : extractImagesOf P (buffer f) = []) by (unfold extractImagesOf; now rewrite D).
  assert (T : textOutcome P (buffer f) = Thrown e) by (unfold textOutcome; now rewrite D).
  repeat split.
  - intros [F|F].
    + rewrite (handler_text P f b F), T. reflexivity.
    + rewrite (handler_markdown P f b F), T. reflexivity.
  - intros F. rewrite (handler_images P f b F). unfold okResponse. rewrite E, F. cbn [snd].
    eexists. split; [reflexivity|]. rewrite orb_true_r. split; reflexivity.
  - rewrite (handler_ocr P f b H), E. reflexivity.
  - rewrite (handler_ocr P f b H), E. cbn. eexists. split; reflexivity.
Qed.

Lemma X5_unreadable_document_witness :
  snd (run (handler Cases.brokenPlatform
              (post Demo.docPdf (Demo.fields "text" false false))))
  = Returned (errorResponse (lit "Invalid PDF structure"))
  /\ count isEngine
       (fst (run (handler Cases.brokenPlatform
                    (post Demo.docPdf (Demo.fields "ocr" false false))))) = 0%nat.
Proof.
  destruct (X5_unreadable_document Cases.brokenPlatform Demo.docPdf
              (Demo.fields "text" false false) (lit "Invalid PDF structure") eq_refl)
    as (T & _ & _).
  destruct (X5_unreadable_document Cases.brokenPlatform Demo.docPdf
              (Demo.fields "ocr" false false) (lit "Invalid PDF structure") eq_refl)
    as (_ & _ & O).
  split; [apply T; now left | apply O; reflexivity].
Defined.

(** ** The alpha channel *)

Lemma nth_tl {A} (l : list A) k d : nth k (tl l) d = nth (S k) l d.
Proof. destruct l; [destruct k; reflexivity | reflexivity]. Qed.

Lemma hd_nth {A} (l : list A) d : hd d l = nth 0 l d.
Proof. destruct l; reflexivity. Qed.

Lemma addAlphaLoop_length n src : List.length (addAlphaLoop n src) = (4 * n)%nat.
Proof.
  revert src. induction n as [|n IH]; intros src; [reflexivity|].
  simpl. rewrite IH. lia.
Qed.

Lemma addAlphaLoop_pixel n : forall src p, (p < n)%nat ->
  nth (4 * p) (addAlphaLoop n src) 0%N = clamp (nth (3 * p) src 0%N)
  /\ nth (4 * p + 1) (addAlphaLoop n src) 0%N = clamp (nth (3 * p + 1) src 0%N)
  /\ nth (4 * p + 2) (addAlphaLoop n src) 0%N = clamp (nth (3 * p + 2) src 0%N)
  /\ nth (4 * p + 3) (addAlphaLoop n src) 0%N = 255%N.
Proof.
  induction n as [|n IH]; intros src p Hp; [lia|].
  destruct p as [|p].
  - simpl. rewrite !hd_nth, !nth_tl. repeat split; reflexivity.
  - destruct (IH (tl (tl (tl src))) p ltac:(lia)) as (R & G & B & A).
    rewrite !nth_tl in R, G, B.
    replace (4 * S p)%nat with (S (S (S (S (4 * p))))) by lia.
    replace (3 * S p)%nat with (S (S (S (3 * p)))) by lia.
    cbn [addAlphaLoop nth Nat.add].
    replace (3 * p + 1)%nat with (S (3 * p)) in * by lia.
    replace (3 * p + 2)%nat with (S (S (3 * p))) in * by lia.
    replace (4 * p + 1)%nat with (S (4 * p)) in * by lia.
    replace (4 * p + 2)%nat with (S (S (4 * p))) in * by lia.
    replace (4 * p + 3)%nat with (S (S (S (4 * p)))) in * by lia.
    cbn [nth]. repeat split; assumption.
Qed.

Lemma clamp_byte x : (clamp x <= 255)%N.
Proof. unfold clamp. lia. Qed.

Lemma clamp_of_byte x : (x <= 255)%N -> clamp x = x.
Proof. unfold clamp. lia. Qed.

Lemma addAlphaLoop_bytes n src : Forall (fun x => (x <= 255)%N) (addAlphaLoop n src).
Proof.
  revert src. induction n as [|n IH]; intros src; [constructor|].
  cbn [addAlphaLoop]. repeat (constructor; [apply clamp_byte || lia|]). apply IH.
Qed.

(** X6: the array [addAlphaChannelToUnit8ClampedArray] returns has four
    bytes for each of the [imageWidth * imageHeight] pixels: the three
    colour values of the pixel in the source, in order, as a
    [Uint8ClampedArray] stores them (a value above 255 as 255, a value the
    source does not have as 0), then 255.  Every byte of it is at most 255,
    and a colour value that is a byte is copied as it is. *)
Theorem X6_alpha_channel (unit8Array : list N) (imageWidth imageHeight : Z) :
  (0 <= imageWidth * imageHeight)%Z ->
  Z.of_nat (List.length
              (addAlphaChannelToUnit8ClampedArray unit8Array imageWidth imageHeight))
  = (4 * (imageWidth * imageHeight))%Z
  /\ Forall (fun x => (x <= 255)%N)
       (addAlphaChannelToUnit8ClampedArray unit8Array imageWidth imageHeight)
  /\ forall p, (Z.of_nat p < imageWidth * imageHeight)%Z ->
       nth (4 * p + 3)
           (addAlphaChannelToUnit8ClampedArray unit8Array imageWidth imageHeight) 0%N
       = 255%N
       /\ forall c, (c < 3)%nat ->
            nth (4 * p + c)
                (addAlphaChannelToUnit8ClampedArray unit8Array imageWidth imageHeight) 0%N
            = N.min (nth (3 * p + c) unit8Array 0%N) 255
            /\ ((nth (3 * p + c) unit8Array 0 <= 255)%N ->
                nth (4 * p + c)
                    (addAlphaChannelToUnit8ClampedArray unit8Array imageWidth imageHeight)
                    0%N
                = nth (3 * p + c) unit8Array 0%N).
Proof.
  intros H. unfold addAlphaChannelToUnit8ClampedArray. split; [|split].
  - rewrite addAlphaLoop_length. lia.
  - apply addAlphaLoop_bytes.
  - intros p Hp.
    destruct (addAlphaLoop_pixel (Z.to_nat (imageWidth * imageHeight)) unit8Array p
                ltac:(lia)) as (R & G & B & A).
    split; [exact A|]. intros c Hc.
    assert (E : nth (4 * p + c)
                  (addAlphaLoop (Z.to_nat (imageWidth * imageHeight)) unit8Array) 0%N
                = clamp (nth (3 * p + c) unit8Array 0%N)).
    { destruct c as [|[|[|c]]]; [| | |lia].
      - now rewrite !Nat.add_0_r.
      - exact G.
      - exact B. }
    split; [exact E|]. intros L. rewrite E. now apply clamp_of_byte.
Qed.

Lemma X6_alpha_channel_witness :
  Z.of_nat (List.length (addAlphaChannelToUnit8ClampedArray [10; 20; 300; 40; 50]%N 2 1))
  = (4 * (2 * 1))%Z
  /\ addAlphaChannelToUnit8ClampedArray [10; 20; 300; 40; 50]%N 2 1
     = [10; 20; 255; 255; 40; 50; 0; 255]%N.
Proof.
  split; [|reflexivity].
  apply (X6_alpha_channel [10; 20; 300; 40; 50]%N 2 1). lia.
Defined.

(** ** The pictures of the pages *)

Lemma capturePage_pushed pg i images :
  capturePage pg i images = images ++ pageEntryOfPage pg i.
Proof.
  unfold capturePage, pageEntryOfPage. destruct (render pg); [reflexivity|].
  now rewrite app_nil_r.
Qed.

Lemma imagesLoop_pushed P pages i acc images :
  imagesLoop P pages i acc = Returned images ->
  images = acc ++ pushedEntries P pages i.
Proof.
  revert i acc. induction pages as [|[pg|] pages IH]; intros i acc; simpl.
  - intros E. injection E as <-. now rewrite app_nil_r.
  - destruct (getOperatorList pg) as [ops|]; [|discriminate].
    intros E. apply IH in E. rewrite E, capturePage_pushed, fold_paintOperator.
    now rewrite <- !app_assoc.
  - discriminate.
Qed.

Lemma pageEntryOfPage_pictures pg i :
  filter isPagePicture (pageEntryOfPage pg i) = pageEntryOfPage pg i.
Proof. unfold pageEntryOfPage. destruct (render pg); reflexivity. Qed.

Lemma embeddedOfPage_no_picture P pg i ops :
  filter isPagePicture (embeddedOfPage P pg i ops) = [].
Proof.
  apply filter_none. intros e He.
  pose proof (embeddedOfPage_entries P pg i ops) as F. rewrite Forall_forall in F.
  destruct (F e He) as [T _]. unfold isPagePicture. now rewrite T.
Qed.

Lemma imagesLoop_pictures P pages i acc images :
  imagesLoop P pages i acc = Returned images ->
  filter isPagePicture (pushedEntries P pages i) = pageEntriesOf pages i
  /\ List.length (pageEntriesOf pages i) = List.length (filter renders pages).
Proof.
  revert i acc. induction pages as [|[pg|] pages IH]; intros i acc; simpl.
  - intros _. split; reflexivity.
  - destruct (getOperatorList pg) as [ops|]; [|discriminate].
    intros E. destruct (IH _ _ E) as [F L].
    rewrite !filter_app, embeddedOfPage_no_picture, pageEntryOfPage_pictures, F.
    split; [reflexivity|]. rewrite length_app, L.
    unfold pageEntryOfPage. destruct (render pg); reflexivity.
  - discriminate.
Qed.

Lemma embeddedOfPage_number P pg i ops :
  Forall (fun e => pageNumber e = i) (embeddedOfPage P pg i ops).
Proof.
  unfold embeddedOfPage. induction ops as [|op ops IH]; simpl; [constructor|].
  destruct (contribution P pg i op) as [e|] eqn:C; [|exact IH].
  constructor; [|exact IH].
  destruct (contribution_entry _ _ _ _ _ C) as (_ & N & _). exact N.
Qed.

Lemma pushedEntries_numbers P pages i :
  Forall (fun e => (i <= pageNumber e < i + Z.of_nat (List.length pages))%Z)
         (pushedEntries P pages i).
Proof.
  revert i. induction pages as [|pgo pages IH]; intros i; [constructor|].
  assert (R : Forall (fun e => (i <= pageNumber e
                                < i + Z.of_nat (List.length (pgo :: pages)))%Z)
                (pushedEntries P pages (i + 1))).
  { eapply Forall_impl; [|apply IH]. intros e He. cbn beta in He. cbn [List.length]. lia. }
  simpl pushedEntries. destruct pgo as [pg|]; [|exact R].
  destruct (getOperatorList pg) as [ops|]; [|exact R].
  apply Forall_app. split; [|apply Forall_app; split; [|exact R]].
  - eapply Forall_impl; [|apply embeddedOfPage_number].
    intros e He. cbn beta in He. cbn [List.length]. lia.
  - unfold pageEntryOfPage. destruct (render pg); constructor; [|constructor].
    cbn [pageNumber List.length]. lia.
Qed.

(** X7: when the page loop of [extractImages] ends, the array holds, in
    some order, the embedded images and the picture of each page; the
    pictures are those of the pages whose rendering returned, one each,
    whatever happened to the embedded images; and every entry carries the
    number of a page of the document.  The engine's [sort] is taken to keep
    the elements of the array. *)
Theorem X7_page_pictures (P : Platform) (pdfData : list N)
    (pdf : PDFDocument) (images : list ExtractedImage) :
  Sorting.permutes (arraySort P) ->
  getDocument P pdfData = Returned pdf ->
  imagesLoop P pdf 1 [] = Returned images ->
  Permutation (pushedEntries P pdf 1) (extractImagesOf P pdfData)
  /\ Permutation (filter isPagePicture (extractImagesOf P pdfData)) (pageEntriesOf pdf 1)
  /\ List.length (filter isPagePicture (extractImagesOf P pdfData))
     = List.length (filter renders pdf)
  /\ forall e, In e (extractImagesOf P pdfData) ->
               (1 <= pageNumber e <= Z.of_nat (List.length pdf))%Z.
Proof.
  intros Hsort D L.
  assert (Q : Permutation (pushedEntries P pdf 1) (extractImagesOf P pdfData)).
  { unfold extractImagesOf. rewrite D, L.
    rewrite (imagesLoop_pushed _ _ _ _ _ L) at 1. apply Hsort. }
  destruct (imagesLoop_pictures _ _ _ _ _ L) as [F N].
  assert (Q' : Permutation (filter isPagePicture (extractImagesOf P pdfData))
                 (pageEntriesOf pdf 1)).
  { rewrite <- F. apply Permutation_filter, Permutation_sym, Q. }
  repeat split.
  - exact Q.
  - exact Q'.
  - rewrite (Permutation_length Q'). exact N.
  - apply (Permutation_in _ (Permutation_sym Q)) in H.
    pose proof (pushedEntries_numbers P pdf 1) as R. rewrite Forall_forall in R.
    specialize (R e H). lia.
  - apply (Permutation_in _ (Permutation_sym Q)) in H.
    pose proof (pushedEntries_numbers P pdf 1) as R. rewrite Forall_forall in R.
    specialize (R e H). lia.
Qed.

Lemma X7_page_pictures_witness :
  Permutation (pushedEntries (Demo.platform (Returned (lit "Hi")))
                 [Returned Demo.onePage] 1)
    (extractImagesOf (Demo.platform (Returned (lit "Hi"))) (buffer Demo.docPdf))
  /\ pushedEntries (Demo.platform (Returned (lit "Hi"))) [Returned Demo.onePage] 1
     = [Demo.embeddedEntry; Demo.pageEntry]
  /\ extractImagesOf (Demo.platform (Returned (lit "Hi"))) (buffer Demo.docPdf)
     = [Demo.pageEntry; Demo.embeddedEntry].
Proof.
  split; [|split; vm_compute; reflexivity].
  apply (X7_page_pictures (Demo.platform (Returned (lit "Hi"))) (buffer Demo.docPdf)
           [Returned Demo.onePage] [Demo.embeddedEntry; Demo.pageEntry]
           insertionSort_permutes).
  - reflexivity.
  - vm_compute. reflexivity.
Defined.

(** ** One pass of recognition, end to end *)

Lemma passOutcome_returns P k d t :
  passOutcome P k d = Returned t <->
  exists w, createWorker P k = Returned w
            /\ loadLanguage w (lit "eng") = Returned tt
            /\ initialize w (lit "eng") = Returned tt
            /\ recognize w (dataUrlOf d) = Returned t
            /\ terminate w = Returned tt.
Proof.
  unfold passOutcome, tryOutcome. split.
  - destruct (createWorker P k) as [w|]; [|discriminate].
    destruct (terminate w) as [[]|] eqn:T; [|discriminate].
    destruct (loadLanguage w (lit "eng")) as [[]|] eqn:L; [|discriminate].
    destruct (initialize w (lit "eng")) as [[]|] eqn:I; [|discriminate].
    intros R. exists w. repeat split; assumption || reflexivity.
  - intros (w & -> & -> & -> & R & ->). exact R.
Qed.

(** X8: a pass of [performOCR] returns a text exactly when [createWorker],
    [loadLanguage('eng')], [initialize('eng')], [recognize] on the data URL
    of the image and [terminate] all return, and the text is the one
    [recognize] gave; when [terminate] throws, the pass throws the error of
    [terminate], also after a recognition that returned. *)
Theorem X8_pass_outcome (P : Platform) (imageBase64 : jsstring) (tr : list event) :
  (forall t,
      snd (performOCR P imageBase64 tr) = Returned t <->
      exists w, createWorker P (count isCreateWorker tr) = Returned w
                /\ loadLanguage w (lit "eng") = Returned tt
                /\ initialize w (lit "eng") = Returned tt
                /\ recognize w (lit "data:image/png;base64," ++ imageBase64) = Returned t
                /\ terminate w = Returned tt)
  /\ (forall w e,
        createWorker P (count isCreateWorker tr) = Returned w ->
        terminate w = Thrown e ->
        snd (performOCR P imageBase64 tr) = Thrown e).
Proof.
  rewrite performOCR_run. cbn [snd]. split.
  - intros t. apply passOutcome_returns.
  - intros w e C T. unfold passOutcome. now rewrite C, T.
Qed.

Lemma X8_pass_outcome_witness :
  snd (performOCR Cases.stuckPlatform (lit "cGFnZQ==") [])
  = Thrown (lit "Worker already terminated").
Proof.
  apply (proj2 (X8_pass_outcome Cases.stuckPlatform (lit "cGFnZQ==") [])
           Cases.stuckWorker (lit "Worker already terminated")); reflexivity.
Defined.

(** ** Every request *)

Lemma post_or_not req :
  (exists f b, req = post f b) \/ (forall f b, req <> post f b).
Proof.
  destruct req as [m [[[f|] b]|e]]; unfold post;
    try (right; intros f' b' E; discriminate E).
  destruct (eqb m (lit "POST")) eqn:M.
  - apply eqb_eq in M. subst. left. now exists f, b.
  - apply eqb_neq in M. right. intros f' b' E. injection E as E _ _. contradiction.
Qed.

Lemma handler_not_post P req :
  (forall f b, req <> post f b) ->
  exists s msg,
    run (handler P req) = ([], Returned {| status := s; json := JError msg |})
    /\ (s = 405 \/ s = 500 \/ s = 400)%Z.
Proof.
  intros H. destruct req as [m [[[f|] b]|e]]; unfold run, handler; cbn [method upload];
    destruct (eqb m (lit "POST")) eqn:E; cbn [negb];
    try (eexists; eexists; split; [reflexivity | tauto]).
  apply eqb_eq in E. subst. exfalso. exact (H f b eq_refl).
Qed.

Lemma knownFormat_cases fmt :
  knownFormat fmt = true ->
  fmt = lit "text" \/ fmt = lit "markdown" \/ fmt = lit "images" \/ fmt = lit "ocr".
Proof.
  unfold knownFormat. intros K.
  repeat (apply orb_true_iff in K; destruct K as [K|K]); apply eqb_eq in K; tauto.
Qed.

(** The trace of a request: stage calls, then the events of the batch. *)
Lemma handler_trace P req :
  exists stages engine,
    fst (run (handler P req)) = stages ++ engine
    /\ In stages stageTraces
    /\ (engine = [] \/ exists datas, engine = batchEvents P 0 datas).
Proof.
  destruct (post_or_not req) as [(f & b & ->)|N].
  - destruct (knownFormat (formatOf b)) eqn:K.
    + destruct (knownFormat_cases _ K) as [F|[F|[F|F]]].
      * rewrite (handler_text P f b F). unfold rasterEvents. rewrite F. decide_formats.
        exists (if wantsImages b then [EvExtractImages; EvExtractText] else [EvExtractText]), [].
        cbn [fst]. rewrite app_nil_r. unfold stageTraces.
        destruct (wantsImages b); cbn; tauto.
      * rewrite (handler_markdown P f b F). unfold rasterEvents. rewrite F. decide_formats.
        exists (if wantsImages b then [EvExtractImages; EvExtractText] else [EvExtractText]), [].
        cbn [fst]. rewrite app_nil_r. unfold stageTraces.
        destruct (wantsImages b); cbn; tauto.
      * rewrite (handler_images P f b F). exists [EvExtractImages], [].
        cbn. tauto.
      * rewrite (handler_ocr P f b F). eexists [EvExtractImages], _. cbn [fst].
        split; [reflexivity|]. split; [cbn; tauto|]. right. eexists. reflexivity.
    + rewrite (handler_invalid P f b K).
      exists (if wantsImages b then [EvExtractImages] else []), [].
      cbn [fst]. rewrite app_nil_r. destruct (wantsImages b); cbn; tauto.
  - destruct (handler_not_post P req N) as (s & msg & -> & _).
    exists [], []. cbn. tauto.
Qed.

Lemma passEvents_counts P k d :
  count isCreateWorker (passEvents P k d) = count isTerminate (passEvents P k d)
  /\ oneAtATime (passEvents P k d).
Proof.
  unfold passEvents, oneAtATime, count. destruct (createWorker P k) as [w|].
  - destruct (reachesRecognize w); (split; [reflexivity|]);
      intros [|[|[|[|n]]]]; cbn; lia.
  - split; [reflexivity|]. intros n. rewrite firstn_nil. cbn. lia.
Qed.

Lemma oneAtATime_app tr tr' :
  oneAtATime tr -> count isCreateWorker tr = count isTerminate tr ->
  oneAtATime tr' -> oneAtATime (tr ++ tr').
Proof.
  intros Htr B Htr' n. rewrite firstn_app, !count_app.
  destruct (Nat.le_gt_cases (List.length tr) n) as [L|L].
  - rewrite firstn_all2 by exact L. specialize (Htr' (n - List.length tr)%nat). lia.
  - replace (n - List.length tr)%nat with 0%nat by lia.
    specialize (Htr n). cbn. lia.
Qed.

Lemma batchEvents_counts P k datas :
  count isCreateWorker (batchEvents P k datas) = count isTerminate (batchEvents P k datas)
  /\ oneAtATime (batchEvents P k datas).
Proof.
  revert k. induction datas as [|d rest IH]; intros k; simpl.
  - split; [reflexivity|]. intros n. rewrite firstn_nil. cbn. lia.
  - destruct (passEvents_counts P k d) as [B Hp].
    destruct (passOutcome P k d).
    + destruct (IH (S k)) as [B' Hb]. split.
      * rewrite !count_app. lia.
      * now apply oneAtATime_app.
    + rewrite app_nil_r. now split.
Qed.

Lemma stageTraces_quiet stages :
  In stages stageTraces ->
  count isCreateWorker stages = 0%nat /\ count isTerminate stages = 0%nat
  /\ oneAtATime stages
  /\ (count isExtractImages stages <= 1)%nat /\ (count isExtractText stages <= 1)%nat
  /\ forall id, count (isTerminateOf id) stages = 0%nat
                /\ count (isCreateOf id) stages = 0%nat.
Proof.
  unfold stageTraces. intros [<-|[<-|[<-|[<-|[]]]]];
    (split; [reflexivity|]; split; [reflexivity|];
     split; [intros k; destruct k as [|[|[|k]]]; cbn; lia|];
     split; [cbn; lia|]; split; [cbn; lia|];
     intros id; split; reflexivity).
Qed.

Lemma engine_part_quiet P engine (p : event -> bool) :
  (forall e, isEngine e = true -> p e = false) ->
  engine = [] \/ (exists datas, engine = batchEvents P 0 datas) ->
  count p engine = 0%nat.
Proof.
  intros Hp [-> | (datas & ->)]; [reflexivity|].
  apply count_engine_only; [exact Hp | apply batchEvents_engine].
Qed.

(** X9: in every request image extraction runs at most once and text
    extraction runs at most once.  For a POST that carries a file, image
    extraction runs exactly when the format is images or ocr or
    [includeImages] is set, text extraction exactly when the format is text
    or markdown, and no worker is created, used or terminated unless the
    format is ocr. *)
Theorem X9_stages_of_a_request (P : Platform) :
  (forall req,
      (count isExtractImages (fst (run (handler P req))) <= 1)%nat
      /\ (count isExtractText (fst (run (handler P req))) <= 1)%nat)
  /\ (forall f b,
        count isExtractImages (fst (run (handler P (post f b))))
        = (if eqb (formatOf b) (lit "images") || eqb (formatOf b) (lit "ocr")
              || wantsImages b then 1 else 0)%nat
        /\ count isExtractText (fst (run (handler P (post f b))))
           = (if eqb (formatOf b) (lit "text") || eqb (formatOf b) (lit "markdown")
              then 1 else 0)%nat
        /\ (eqb (formatOf b) (lit "ocr") = true
            \/ count isEngine (fst (run (handler P (post f b)))) = 0%nat)).
Proof.
  split.
  - intros req. destruct (handler_trace P req) as (stages & engine & -> & Hs & He).
    destruct (stageTraces_quiet stages Hs) as (_ & _ & _ & I & T & _).
    rewrite !count_app.
    rewrite (engine_part_quiet P engine isExtractImages), (engine_part_quiet P engine isExtractText);
      try exact He; try (intros [] E; try reflexivity; discriminate).
    lia.
  - intros f b. destruct (knownFormat (formatOf b)) eqn:K.
    + destruct (knownFormat_cases _ K) as [F|[F|[F|F]]].
      * rewrite (handler_text P f b F). unfold rasterEvents. rewrite F. decide_formats.
        destruct (wantsImages b); cbn; auto.
      * rewrite (handler_markdown P f b F). unfold rasterEvents. rewrite F. decide_formats.
        destruct (wantsImages b); cbn; auto.
      * rewrite (handler_images P f b F), F. decide_formats. cbn. auto.
      * rewrite (handler_ocr P f b F), F. decide_formats. cbn [fst].
        rewrite !count_app.
        rewrite (count_engine_only isExtractImages (batchEvents P 0 _)),
          (count_engine_only isExtractText (batchEvents P 0 _));
          try apply batchEvents_engine; try (intros [] E; try reflexivity; discriminate).
        cbn. auto.
    + rewrite (handler_invalid P f b K). unfold knownFormat in K.
      repeat (apply orb_false_iff in K; destruct K as [K ?]).
      rewrite K, H, H0, H1. destruct (wantsImages b); cbn; auto.
Qed.

(** X10: at every point of every request at most one worker exists that
    has not been terminated: a worker is created only after the one before
    it was terminated. *)
Theorem X10_one_worker_at_a_time (P : Platform) (req : Request) :
  oneAtATime (fst (run (handler P req))).
Proof.
  destruct (handler_trace P req) as (stages & engine & -> & Hs & He).
  destruct (stageTraces_quiet stages Hs) as (C & T & Q & _).
  apply oneAtATime_app; [exact Q | congruence |].
  destruct He as [-> | (datas & ->)].
  - intros n. rewrite firstn_nil. cbn. lia.
  - apply batchEvents_counts.
Qed.

(** X11: when a request is answered, whatever the answer is, every worker
    that was created in it has been terminated, once. *)
Theorem X11_no_worker_left (P : Platform) (req : Request) (id : nat) :
  count (isTerminateOf id) (fst (run (handler P req)))
  = count (isCreateOf id) (fst (run (handler P req))).
Proof.
  destruct (handler_trace P req) as (stages & engine & -> & Hs & He).
  destruct (stageTraces_quiet stages Hs) as (_ & _ & _ & _ & _ & Z0).
  destruct (Z0 id) as [T C]. rewrite !count_app, T, C.
  destruct He as [-> | (datas & ->)]; [reflexivity|].
  now rewrite batchEvents_balanced.
Qed.

(** X12: the handler never throws: every request is answered, with status
    200, 400, 405 or 500; the body is a result object exactly when the
    status is 200, and an object with an error message otherwise. *)
Theorem X12_always_answered (P : Platform) (req : Request) :
  exists resp,
    snd (run (handler P req)) = Returned resp
    /\ (status resp = 200 \/ status resp = 400 \/ status resp = 405
        \/ status resp = 500)%Z
    /\ (status resp = 200%Z <-> exists r, json resp = JResult r).
Proof.
  assert (E : forall s msg, (s = 405 \/ s = 500 \/ s = 400)%Z ->
            (s = 200 \/ s = 400 \/ s = 405 \/ s = 500)%Z
            /\ (s = 200%Z <-> exists r, JError msg = JResult r)).
  { intros s msg Hs. split; [tauto|]. split; [lia | intros [r R]; discriminate]. }
  assert (O : forall (resp : Response) r, resp = {| status := 200; json := JResult r |} ->
            (status resp = 200 \/ status resp = 400 \/ status resp = 405
             \/ status resp = 500)%Z
            /\ (status resp = 200%Z <-> exists r', json resp = JResult r')).
  { intros resp r ->. cbn. split; [tauto|]. split; [now exists r | reflexivity]. }
  destruct (post_or_not req) as [(f & b & ->)|N].
  - destruct (knownFormat (formatOf b)) eqn:K.
    + destruct (knownFormat_cases _ K) as [F|[F|[F|F]]].
      * rewrite (handler_text P f b F). cbn [snd].
        destruct (textOutcome P (buffer f)); eexists; (split; [reflexivity|]).
        -- eapply O. reflexivity.
        -- apply E. tauto.
      * rewrite (handler_markdown P f b F). cbn [snd].
        destruct (textOutcome P (buffer f)); eexists; (split; [reflexivity|]).
        -- eapply O. reflexivity.
        -- apply E. tauto.
      * rewrite (handler_images P f b F). cbn [snd].
        eexists; split; [reflexivity|]. eapply O. reflexivity.
      * rewrite (handler_ocr P f b F). cbn [snd].
        destruct (batchOutcome P 0 _ []); eexists; (split; [reflexivity|]).
        -- eapply O. reflexivity.
        -- apply E. tauto.
    + rewrite (handler_invalid P f b K). cbn [snd].
      eexists; split; [reflexivity|]. apply E. tauto.
  - destruct (handler_not_post P req N) as (s & msg & -> & Hs).
    eexists; split; [reflexivity|]. now apply E.
Qed.

Lemma isTrue_flag v : isTrue (flag v) = v.
Proof. destruct v; reflexivity. Qed.

(** X13: a POST that carries a file is answered with status 400 exactly
    when its format is none of the four; a request for the images is always
    answered with status 200, whatever the document is, and an answer with
    status 500 has the format text, markdown or ocr. *)
Theorem X13_status_of_a_post (P : Platform) (f : File) (b : Body) :
  exists resp,
    snd (run (handler P (post f b))) = Returned resp
    /\ (status resp = 400%Z <-> knownFormat (formatOf b) = false)
    /\ (formatOf b = lit "images" -> status resp = 200%Z)
    /\ (status resp = 500%Z ->
        formatOf b = lit "text" \/ formatOf b = lit "markdown" \/ formatOf b = lit "ocr").
Proof.
  destruct (knownFormat (formatOf b)) eqn:K.
  - destruct (knownFormat_cases _ K) as [F|[F|[F|F]]].
    + rewrite (handler_text P f b F). cbn [snd].
      destruct (textOutcome P (buffer f)); eexists; (split; [reflexivity|]);
        rewrite F; cbn; repeat split; try discriminate; auto.
    + rewrite (handler_markdown P f b F). cbn [snd].
      destruct (textOutcome P (buffer f)); eexists; (split; [reflexivity|]);
        rewrite F; cbn; repeat split; try discriminate; auto.
    + rewrite (handler_images P f b F). cbn [snd].
      eexists; split; [reflexivity|].
      rewrite F; cbn; repeat split; try discriminate; auto.
    + rewrite (handler_ocr P f b F). cbn [snd].
      destruct (batchOutcome P 0 _ []); eexists; (split; [reflexivity|]);
        rewrite F; cbn; repeat split; try discriminate; auto.
  - rewrite (handler_invalid P f b K). cbn [snd].
    eexists; split; [reflexivity|]. cbn. repeat split; try discriminate; auto.
    intros F. rewrite F in K. discriminate K.
Qed.

(** X14: in an answer with status 200 the text is there exactly when the
    format is not images, the images exactly when the format is images or
    [includeImages] is set, and the metadata exactly when [includeMetadata]
    is set: a flag adds its property and removes none. *)
Theorem X14_properties_of_the_result (P : Platform) (f : File) (b : Body) (r : Result) :
  snd (run (handler P (post f b))) = Returned {| status := 200; json := JResult r |} ->
  present (text r) = negb (eqb (formatOf b) (lit "images"))
  /\ present (images r) = (eqb (formatOf b) (lit "images") || wantsImages b)
  /\ present (metadata r) = wantsMetadata b.
Proof.
  intros R. destruct (knownFormat (formatOf b)) eqn:K.
  - destruct (knownFormat_cases _ K) as [F|[F|[F|F]]].
    + rewrite (handler_text P f b F) in R. cbn [snd] in R.
      destruct (textOutcome P (buffer f)); [|discriminate].
      unfold okResponse in R. injection R as <-. rewrite F. decide_formats. cbn.
      destruct (wantsImages b), (wantsMetadata b); auto.
    + rewrite (handler_markdown P f b F) in R. cbn [snd] in R.
      destruct (textOutcome P (buffer f)); [|discriminate].
      unfold okResponse in R. injection R as <-. rewrite F. decide_formats. cbn.
      destruct (wantsImages b), (wantsMetadata b); auto.
    + rewrite (handler_images P f b F) in R. cbn [snd] in R.
      unfold okResponse in R. injection R as <-. rewrite F. decide_formats. cbn.
      destruct (wantsImages b), (wantsMetadata b); auto.
    + rewrite (handler_ocr P f b F) in R. cbn [snd] in R.
      destruct (batchOutcome P 0 _ []); [|discriminate].
      unfold okResponse in R. injection R as <-. rewrite F. decide_formats. cbn.
      destruct (wantsImages b), (wantsMetadata b); auto.
  - rewrite (handler_invalid P f b K) in R. discriminate.
Qed.

Lemma X14_properties_of_the_result_witness :
  present (text Demo.ocrResult) = negb (eqb (formatOf (Demo.fields "ocr" true true)) (lit "images"))
  /\ present (images Demo.ocrResult)
     = (eqb (formatOf (Demo.fields "ocr" true true)) (lit "images")
        || wantsImages (Demo.fields "ocr" true true))
  /\ present (metadata Demo.ocrResult) = wantsMetadata (Demo.fields "ocr" true true).
Proof.
  apply (X14_properties_of_the_result (Demo.platform (Returned (lit "Hi"))) Demo.docPdf
           (Demo.fields "ocr" true true) Demo.ocrResult).
  reflexivity.
Defined.

(** X15: the two flags do not touch the primary payload: a request is
    answered with the same status as the request of the same format without
    flags, with the same error message when it fails, and with the same text
    and, when images are the format, the same images when it succeeds. *)
Theorem X15_flags_keep_the_payload (P : Platform) (f : File) (b b0 : Body) :
  formatOf b0 = formatOf b ->
  wantsImages b0 = false ->
  wantsMetadata b0 = false ->
  exists s j j0,
    snd (run (handler P (post f b))) = Returned {| status := s; json := j |}
    /\ snd (run (handler P (post f b0))) = Returned {| status := s; json := j0 |}
    /\ match j0, j with
       | JError e0, JError e => e0 = e
       | JResult r0, JResult r =>
           text r = text r0 /\ (images r0 = None \/ images r = images r0)
       | _, _ => False
       end.
Proof.
  intros E I M. destruct (knownFormat (formatOf b)) eqn:K.
  - destruct (knownFormat_cases _ K) as [F|[F|[F|F]]];
      assert (F0 := eq_trans E F).
    + rewrite (handler_text P f b F), (handler_text P f b0 F0). cbn [snd].
      destruct (textOutcome P (buffer f)); do 3 eexists;
        (split; [reflexivity|]; split; [reflexivity|]); cbn; auto.
      rewrite I, F0. cbn. auto.
    + rewrite (handler_markdown P f b F), (handler_markdown P f b0 F0). cbn [snd].
      destruct (textOutcome P (buffer f)); do 3 eexists;
        (split; [reflexivity|]; split; [reflexivity|]); cbn; auto.
      rewrite I, F0. cbn. auto.
    + rewrite (handler_images P f b F), (handler_images P f b0 F0). cbn [snd].
      do 3 eexists; (split; [reflexivity|]; split; [reflexivity|]); cbn.
      rewrite I, F0, F. cbn. rewrite orb_true_r. auto.
    + rewrite (handler_ocr P f b F), (handler_ocr P f b0 F0). cbn [snd].
      destruct (batchOutcome P 0 _ []); do 3 eexists;
        (split; [reflexivity|]; split; [reflexivity|]); cbn; auto.
      rewrite I, F0. cbn. auto.
  - rewrite (handler_invalid P f b K).
    rewrite <- E in K. rewrite (handler_invalid P f b0 K). cbn [snd].
    do 3 eexists; (split; [reflexivity|]; split; [reflexivity|]). reflexivity.
Qed.

Lemma X15_flags_keep_the_payload_witness :
  exists s j j0,
    snd (run (handler (Demo.platform (Returned (lit "Hi")))
                (post Demo.docPdf (Demo.fields "text" true true))))
    = Returned {| status := s; json := j |}
    /\ snd (run (handler (Demo.platform (Returned (lit "Hi")))
                   (post Demo.docPdf (Demo.fields "text" false false))))
       = Returned {| status := s; json := j0 |}
    /\ match j0, j with
       | JError e0, JError e => e0 = e
       | JResult r0, JResult r =>
           text r = text r0 /\ (images r0 = None \/ images r = images r0)
       | _, _ => False
       end.
Proof.
  apply (X15_flags_keep_the_payload (Demo.platform (Returned (lit "Hi"))) Demo.docPdf
           (Demo.fields "text" true true) (Demo.fields "text" false false));
    reflexivity.
Defined.

(** X16: markdown is the text format under a heading: a markdown request
    runs the same stages as the text request with the same [includeImages],
    fails with the same message when that one fails, and otherwise carries
    the same images and, as its text, [# ] and the name of the file, a blank
    line, and the text of that one. *)
Theorem X16_markdown_is_text_with_heading (P : Platform) (f : File) (b bt : Body) :
  formatOf b = lit "markdown" ->
  formatOf bt = lit "text" ->
  wantsImages bt = wantsImages b ->
  fst (run (handler P (post f b))) = fst (run (handler P (post f bt)))
  /\ exists s j jt,
       snd (run (handler P (post f b))) = Returned {| status := s; json := j |}
       /\ snd (run (handler P (post f bt))) = Returned {| status := s; json := jt |}
       /\ match jt, j with
          | JError et, JError e => et = e
          | JResult rt, JResult r =>
              images r = images rt
              /\ exists t, text rt = Some t
                           /\ text r = Some (lit "# " ++ originalname f
                                               ++ [newline; newline] ++ t)
          | _, _ => False
          end.
Proof.
  intros F Ft I.
  rewrite (handler_markdown P f b F), (handler_text P f bt Ft).
  unfold rasterEvents. rewrite F, Ft, I. decide_formats. cbn [fst snd].
  split; [reflexivity|].
  destruct (textOutcome P (buffer f)) as [t|e]; do 3 eexists;
    (split; [reflexivity|]; split; [reflexivity|]); cbn; [|reflexivity].
  rewrite F, Ft, I. decide_formats. split; [reflexivity|]. now exists t.
Qed.

Lemma X16_markdown_is_text_with_heading_witness :
  fst (run (handler (Demo.platform (Returned (lit "Hi")))
              (post Demo.docPdf (Demo.fields "markdown" false true))))
  = fst (run (handler (Demo.platform (Returned (lit "Hi")))
                (post Demo.docPdf (Demo.fields "text" true true)))).
Proof.
  apply (X16_markdown_is_text_with_heading (Demo.platform (Returned (lit "Hi")))
           Demo.docPdf (Demo.fields "markdown" false true) (Demo.fields "text" true true));
    reflexivity.
Defined.

(** X17: whatever the page sends for a chosen file is served: for each
    option of the format [select] and each state of the two check boxes the
    answer has status 200 or 500, never 400 or 405; and in a result the
    images are there exactly when the "Include Images" box shows checked,
    the metadata exactly when the "Include Metadata" box is checked. *)
Theorem X17_requests_of_the_page (P : Platform) (chosen : File) (format : jsstring)
    (includeMetadata includeImages : bool) :
  In format Client.formatOptions ->
  exists resp,
    snd (run (handler P (Client.handleSubmit chosen format includeMetadata includeImages)))
    = Returned resp
    /\ (status resp = 200 \/ status resp = 500)%Z
    /\ forall r, json resp = JResult r ->
         present (images r) = Client.imagesBoxChecked format includeImages
         /\ present (metadata r) = includeMetadata.
Proof.
  unfold Client.formatOptions, Client.handleSubmit, Client.imagesBoxChecked.
  set (bd fmt := {| body_format := Some fmt;
                    body_includeMetadata := flag includeMetadata;
                    body_includeImages := flag includeImages |}).
  assert (WI : forall fmt, wantsImages (bd fmt) = includeImages)
    by (intros; apply isTrue_flag).
  assert (WM : forall fmt, wantsMetadata (bd fmt) = includeMetadata)
    by (intros; apply isTrue_flag).
  intros [<-|[<-|[<-|[<-|[]]]]]; fold (bd (lit "text")) (bd (lit "markdown"))
    (bd (lit "ocr")) (bd (lit "images")).
  - rewrite (handler_text P chosen (bd (lit "text")) eq_refl). cbn [snd].
    destruct (textOutcome P (buffer chosen)); eexists; (split; [reflexivity|]);
      (split; [cbn; tauto|]); intros r R; [|discriminate R].
    injection R as <-. cbn [images metadata]. rewrite WI, WM.
    destruct includeImages, includeMetadata; split; reflexivity.
  - rewrite (handler_markdown P chosen (bd (lit "markdown")) eq_refl). cbn [snd].
    destruct (textOutcome P (buffer chosen)); eexists; (split; [reflexivity|]);
      (split; [cbn; tauto|]); intros r R; [|discriminate R].
    injection R as <-. cbn [images metadata]. rewrite WI, WM.
    destruct includeImages, includeMetadata; split; reflexivity.
  - rewrite (handler_ocr P chosen (bd (lit "ocr")) eq_refl). cbn [snd].
    destruct (batchOutcome P 0 _ []); eexists; (split; [reflexivity|]);
      (split; [cbn; tauto|]); intros r R; [|discriminate R].
    injection R as <-. cbn [images metadata]. rewrite WI, WM.
    destruct includeImages, includeMetadata; split; reflexivity.
  - rewrite (handler_images P chosen (bd (lit "images")) eq_refl). cbn [snd].
    eexists; split; [reflexivity|]. split; [cbn; tauto|]. intros r R.
    injection R as <-. cbn [images metadata]. rewrite WI, WM.
    destruct includeImages, includeMetadata; split; reflexivity.
Qed.

Lemma X17_requests_of_the_page_witness :
  exists resp,
    snd (run (handler (Demo.platform (Returned (lit "Hi")))
                (Client.handleSubmit Demo.docPdf (lit "images") true false)))
    = Returned resp
    /\ (status resp = 200 \/ status resp = 500)%Z
    /\ forall r, json resp = JResult r ->
         present (images r) = Client.imagesBoxChecked (lit "images") false
         /\ present (metadata r) = true.
Proof.
  apply (X17_requests_of_the_page (Demo.platform (Returned (lit "Hi"))) Demo.docPdf
           (lit "images") true false).
  right. right. right. left. reflexivity.
Defined.

Lemma batch_workers P k datas acc res :
  batchOutcome P k datas acc = Returned res ->
  count isCreateWorker (batchEvents P k datas) = List.length datas.
Proof.
  revert k acc. induction datas as [|d rest IH]; intros k acc; simpl; [reflexivity|].
  destruct (passOutcome P k d) as [t|] eqn:O; [|discriminate].
  intros R. rewrite count_app, (passOutcome_creates _ _ _ _ O), (IH _ _ R). reflexivity.
Qed.

(** X18: an ocr request rasterizes the document exactly once, whether
    [includeImages] is set or not and whether it succeeds or fails; when it
    is answered with status 200, there was one pass for each image of the
    sequence, in its order, and the result carries the sequence exactly
    when [includeImages] is set. *)
Theorem X18_ocr_passes (P : Platform) (f : File) (b : Body) :
  formatOf b = lit "ocr" ->
  count isExtractImages (fst (run (handler P (post f b)))) = 1%nat
  /\ forall r,
       snd (run (handler P (post f b)))
       = Returned {| status := 200; json := JResult r |} ->
       recognized (fst (run (handler P (post f b))))
       = map data (extractImagesOf P (buffer f))
       /\ count isCreateWorker (fst (run (handler P (post f b))))
          = List.length (extractImagesOf P (buffer f))
       /\ images r = if wantsImages b then Some (extractImagesOf P (buffer f)) else None.
Proof.
  intros F. rewrite (handler_ocr P f b F). cbn [fst snd]. split.
  - rewrite count_app.
    rewrite (count_engine_only isExtractImages (batchEvents P 0 _));
      [reflexivity | intros [] E; try reflexivity; discriminate
       | apply batchEvents_engine].
  - intros r. destruct (batchOutcome P 0 _ []) eqn:O; [|discriminate].
    intros R. unfold okResponse in R. injection R as <-. cbn [images].
    rewrite F. decide_formats. rewrite orb_false_r.
    rewrite !count_app, recognized_app.
    rewrite (batch_recognized_all _ _ _ _ _ O), (batch_workers _ _ _ _ _ O), length_map.
    repeat split; reflexivity.
Qed.

Lemma X18_ocr_passes_witness :
  count isExtractImages
    (fst (run (handler (Demo.platform (Thrown (lit "Recognition failed")))
                 (post Demo.docPdf (Demo.fields "ocr" false false))))) = 1%nat
  /\ count isCreateWorker
       (fst (run (handler (Demo.platform (Returned (lit "  ")))
                    (post Demo.docPdf (Demo.fields "ocr" false false)))))
     = List.length (extractImagesOf (Demo.platform (Returned (lit "  ")))
                      (buffer Demo.docPdf)).
Proof.
  split.
  - exact (proj1 (X18_ocr_passes (Demo.platform (Thrown (lit "Recognition failed")))
                    Demo.docPdf (Demo.fields "ocr" false false) eq_refl)).
  - destruct (proj2 (X18_ocr_passes (Demo.platform (Returned (lit "  "))) Demo.docPdf
                       (Demo.fields "ocr" false false) eq_refl)
                {| text := Some []; images := None; metadata := None |} eq_refl)
      as (_ & C & _).
    exact C.
Defined.

(** ** From the document to the answer *)

(** X19: on a document whose pages all give their text items, a text
    request is answered with status 200 and the text of the reconstructor
    on these items: the page strings joined by blank lines and trimmed
    once. *)
Theorem X19_text_request (P : Platform) (f : File) (b : Body)
    (pdf : PDFDocument) (itemsOf : list (list TextItem)) :
  formatOf b = lit "text" ->
  getDocument P (buffer f) = Returned pdf ->
  Forall2 (fun pgo items =>
             exists pg, pgo = Returned pg /\ getTextContent pg = Returned items)
          pdf itemsOf ->
  exists r,
    snd (run (handler P (post f b))) = Returned {| status := 200; json := JResult r |}
    /\ text r = Some (Text.documentText itemsOf)
    /\ text r = Some (trim (join [newline; newline] (map Text.pageText itemsOf))).
Proof.
  intros F D H. rewrite (handler_text P f b F). cbn [snd].
  rewrite (textOutcome_documentText P (buffer f) pdf itemsOf D H).
  eexists. split; [reflexivity|]. cbn [text]. split; [reflexivity|].
  now rewrite documentText_join.
Qed.

Lemma X19_text_request_witness :
  exists r,
    snd (run (handler (Demo.platform (Returned (lit "Hi")))
                (post Demo.docPdf (Demo.fields "text" false false))))
    = Returned {| status := 200; json := JResult r |}
    /\ text r = Some (Text.documentText [Cases.twoWords])
    /\ text r = Some (trim (join [newline; newline]
                              (map Text.pageText [Cases.twoWords]))).
Proof.
  apply (X19_text_request (Demo.platform (Returned (lit "Hi"))) Demo.docPdf
           (Demo.fields "text" false false) [Returned Demo.onePage] [Cases.twoWords]).
  - reflexivity.
  - reflexivity.
  - constructor; [|constructor]. exists Demo.onePage. split; reflexivity.
Defined.

(** The requests that are answered before any stage: a request that is not
    a POST with status 405, also when its upload would fail; a POST whose
    upload fails with status 500 and the message of the middleware; a POST
    without a file with status 400.  None of them runs a stage. *)
Lemma handler_early_answers (P : Platform) (req : Request) :
  if eqb (method req) (lit "POST") then
    match upload req with
    | Thrown e => run (handler P req) = ([], Returned (errorResponse e))
    | Returned up =>
        match file up with
        | None =>
            run (handler P req)
            = ([], Returned {| status := 400;
                               json := JError (lit "No PDF file uploaded") |})
        | Some f => req = post f (body up)
        end
    end
  else
    run (handler P req)
    = ([], Returned {| status := 405; json := JError (lit "Method not allowed") |}).
Proof.
  destruct req as [m u]. unfold run, handler. cbn [method upload].
  destruct (eqb m (lit "POST")) eqn:M; cbn [negb]; [|reflexivity].
  destruct u as [[[f|] bd]|e]; try reflexivity.
  apply eqb_eq in M. subst. reflexivity.
Qed.

(** X20: a document without pages is not an error: a text request is
    answered with the empty text, a request for the images with an empty
    array, and an ocr request with the empty text without a recognition
    pass.  For the images the engine's [sort] is taken to keep the elements
    of the array. *)
Theorem X20_document_without_pages (P : Platform) (f : File) (b : Body) :
  Sorting.permutes (arraySort P) ->
  getDocument P (buffer f) = Returned [] ->
  extractImagesOf P (buffer f) = []
  /\ (formatOf b = lit "text" ->
      exists r, snd (run (handler P (post f b)))
                = Returned {| status := 200; json := JResult r |}
                /\ text r = Some [])
  /\ (formatOf b = lit "images" ->
      exists r, snd (run (handler P (post f b)))
                = Returned {| status := 200; json := JResult r |}
                /\ images r = Some [])
  /\ (formatOf b = lit "ocr" ->
      count isEngine (fst (run (handler P (post f b)))) = 0%nat
      /\ exists r, snd (run (handler P (post f b)))
                   = Returned {| status := 200; json := JResult r |}
                   /\ text r = Some []).
Proof.
  intros Hsort D.
  assert (E : extractImagesOf P (buffer f) = []).
  { unfold extractImagesOf. rewrite D. cbn [imagesLoop].
    apply Permutation_nil, Hsort. }
  assert (T : textOutcome P (buffer f) = Returned []) by (unfold textOutcome; now rewrite D).
  split; [exact E|]. repeat split.
  - intros F. rewrite (handler_text P f b F), T. cbn. eexists. split; reflexivity.
  - intros F. rewrite (handler_images P f b F). unfold okResponse. rewrite E, F. cbn [snd].
    eexists. split; [reflexivity|]. cbn [images]. now rewrite orb_true_r.
  - rewrite (handler_ocr P f b H), E. reflexivity.
  - rewrite (handler_ocr P f b H), E. cbn. eexists. split; reflexivity.
Qed.

Lemma X20_document_without_pages_witness :
  extractImagesOf Demo.emptyPlatform (buffer Demo.docPdf) = []
  /\ count isEngine
       (fst (run (handler Demo.emptyPlatform
                    (post Demo.docPdf (Demo.fields "ocr" false false))))) = 0%nat.
Proof.
  destruct (X20_document_without_pages Demo.emptyPlatform Demo.docPdf
              (Demo.fields "ocr" false false) insertionSort_permutes eq_refl)
    as (E & _ & _ & O).
  split; [exact E | apply O; reflexivity].
Defined.
